(** * A shallow embedding of the download manager (app.py) and its file repository

    The program is a Flask application whose handlers are glue between a
    request, the local filesystem, and an external video-search provider.
    The embedding keeps that shape:

    - Python values that the handlers inspect are modelled by [json];
    - exceptions are explicit ([result]), and every handler runs in a small
      state-and-exception monad [M] over a [World] (filesystem, clock, log,
      caches, provider);
    - library calls whose text lives outside app.py (datetime formatting,
      humanize, werkzeug's safe join) are either fields of the [PyRuntime]
      class or documented models in their own module.

    Text is ASCII: [str.lower] and [str.strip] act on the ASCII letters and
    the ASCII white space only.  Time stamps are whole seconds that a
    double holds exactly.  I/O errors are modelled where app.py catches
    them: a failing [unlink] (line 277) and an enumeration that stops early
    (line 240).  Four ways in which a library call raises are not part of
    the model, and the properties that depend on them say so in a
    hypothesis: a path beyond the length limits of the kernel
    ([within_path_limits]), a time stamp outside the years that [datetime]
    can show ([in_calendar]), a time stamp outside the years that a zip
    entry can carry ([zip_time_ok]), and a download name with a line break
    in it ([header_safe]).  The rate limiter of lines 34-39
    stands before every view; [flask_run] is about a request that it has
    let through. *)

From Stdlib Require Import List String Ascii ZArith Lia Bool Arith.
From Stdlib Require Import Permutation Sorted DecimalString.
From Stdlib.Strings Require Import Byte.
Import ListNotations.

Local Open Scope string_scope.
Local Open Scope list_scope.
Local Open Scope Z_scope.

Set Implicit Arguments.
Set Warnings "-register-all".

(* ------------------------------------------------------------------ *)
(** ** Python strings *)

Module PyStr.

(** White space as [str.strip] and [str.isspace] see it, ASCII range. *)
Definition is_space (c : ascii) : bool :=
  let n := nat_of_ascii c in
  (((9 <=? n) && (n <=? 13)) || ((28 <=? n) && (n <=? 32)))%nat.

Fixpoint lstrip (s : string) : string :=
  match s with
  | EmptyString => EmptyString
  | String c s' => if is_space c then lstrip s' else s
  end.

Definition rev_string (s : string) : string :=
  string_of_list_ascii (rev (list_ascii_of_string s)).

Definition rstrip (s : string) : string :=
  rev_string (lstrip (rev_string s)).

(** [s.strip()] *)
Definition strip (s : string) : string := rstrip (lstrip s).

Definition lower_char (c : ascii) : ascii :=
  let n := nat_of_ascii c in
  if ((65 <=? n) && (n <=? 90))%nat then ascii_of_nat (n + 32) else c.

(** [s.lower()] *)
Fixpoint lower (s : string) : string :=
  match s with
  | EmptyString => EmptyString
  | String c s' => String (lower_char c) (lower s')
  end.

(** [q in s] *)
Fixpoint contains (q s : string) : bool :=
  String.prefix q s
  || match s with
     | EmptyString => false
     | String _ s' => contains q s'
     end.

(** Truth value of a string: [bool(s)]. *)
Definition truthy (s : string) : bool := negb (s =? "")%string.

(** [s.split('/')] *)
Fixpoint split_slash (s : string) : list string :=
  match s with
  | EmptyString => [EmptyString]
  | String c s' =>
      if (c =? "/")%char then EmptyString :: split_slash s'
      else match split_slash s' with
           | [] => [String c EmptyString]
           | h :: t => String c h :: t
           end
  end.

(** ['/' in s] *)
Fixpoint has_slash (s : string) : bool :=
  match s with
  | EmptyString => false
  | String c s' => (c =? "/")%char || has_slash s'
  end.

Definition starts_with_slash (s : string) : bool :=
  match s with
  | String c _ => (c =? "/")%char
  | EmptyString => false
  end.

Definition digit_val (c : ascii) : option Z :=
  let n := nat_of_ascii c in
  if ((48 <=? n) && (n <=? 57))%nat then Some (Z.of_nat (n - 48)) else None.

(** White space as [int()] skips it around the number: the six characters
    of C's [isspace]; the separators 28-31, which [str.strip] removes, are
    not among them. *)
Definition is_int_space (c : ascii) : bool :=
  let n := nat_of_ascii c in
  (((9 <=? n) && (n <=? 13)) || (n =? 32))%nat.

Fixpoint int_lstrip (s : string) : string :=
  match s with
  | EmptyString => EmptyString
  | String c s' => if is_int_space c then int_lstrip s' else s
  end.

Definition int_strip (s : string) : string :=
  rev_string (int_lstrip (rev_string (int_lstrip s))).

(** The number of decimal digits in a text. *)
Fixpoint digit_count (s : string) : nat :=
  match s with
  | EmptyString => O
  | String c s' =>
      match digit_val c with
      | Some _ => S (digit_count s')
      | None => digit_count s'
      end
  end.

(** [sys.get_int_max_str_digits()], as CPython 3.11 starts with. *)
Definition int_max_str_digits : nat := 4300.

(** Decimal digits, single underscores allowed between digits. *)
Fixpoint parse_digits (acc : Z) (after_digit : bool) (s : string) : option Z :=
  match s with
  | EmptyString => if after_digit then Some acc else None
  | String c s' =>
      match digit_val c with
      | Some d => parse_digits (10 * acc + d) true s'
      | None =>
          if (c =? "_")%char && after_digit then parse_digits acc false s'
          else None
      end
  end.

(** [int(s)] for a string argument, base 10; [None] is [ValueError]: the
    text is no number, or it has more digits than the conversion limit. *)
Definition py_int (s : string) : option Z :=
  let t := int_strip s in
  if (int_max_str_digits <? digit_count t)%nat then None
  else
    match t with
    | String "-" r => option_map Z.opp (parse_digits 0 false r)
    | String "+" r => parse_digits 0 false r
    | _ => parse_digits 0 false t
    end.

(** Every character is in the ASCII range. *)
Fixpoint is_ascii (s : string) : bool :=
  match s with
  | EmptyString => true
  | String c s' => (nat_of_ascii c <? 128)%nat && is_ascii s'
  end.

(** [str(n)] for a natural number. *)
Definition str_of_nat (n : nat) : string :=
  NilEmpty.string_of_uint (Nat.to_uint n).

(** [a < b] on strings: code-point order. *)
Definition str_lt (a b : string) : bool := String.ltb a b.

End PyStr.

(* ------------------------------------------------------------------ *)
(** ** Python values, exceptions and results *)

(** The values the handlers build with [jsonify] and the values the search
    provider hands back. *)
Inductive json : Type :=
| JNull
| JBool (b : bool)
| JInt (z : Z)
| JRat (num den : Z)
| JStr (s : string)
| JList (items : list json)
| JDict (fields : list (string * json)).

Inductive exc_class : Type :=
| NameError | ValueError | TypeError | AttributeError | KeyError
| IndexError | ZeroDivisionError | OverflowError | OSError | HTTPNotFound
| OtherError.

(** An exception object; [exn_text] is what [str(e)] gives. *)
Record exn : Type := Exn { exn_class : exc_class; exn_text : string }.

Inductive result (A : Type) : Type :=
| Ok (a : A)
| Raise (e : exn).
Arguments Ok {A} a.
Arguments Raise {A} e.

(** Association lists stand for Python dicts and for directory tables. *)
Fixpoint lookup {A : Type} (k : string) (l : list (string * A)) : option A :=
  match l with
  | [] => None
  | (k', v) :: l' => if (k =? k')%string then Some v else lookup k l'
  end.

Module PyVal.

(** [v.get(k, default)]: only a dict has the method. *)
Definition get (v : json) (k : string) (default : json) : result json :=
  match v with
  | JDict fields =>
      match lookup k fields with
      | Some x => Ok x
      | None => Ok default
      end
  | _ => Raise (Exn AttributeError "object has no attribute 'get'")
  end.

(** [v[0]] *)
Definition index0 (v : json) : result json :=
  match v with
  | JList (x :: _) => Ok x
  | JList [] => Raise (Exn IndexError "list index out of range")
  | JStr (String c _) => Ok (JStr (String c EmptyString))
  | JStr EmptyString => Raise (Exn IndexError "string index out of range")
  | JDict _ => Raise (Exn KeyError "0")
  | _ => Raise (Exn TypeError "object is not subscriptable")
  end.

Fixpoint chars (s : string) : list json :=
  match s with
  | EmptyString => []
  | String c s' => JStr (String c EmptyString) :: chars s'
  end.

(** The elements a [for] loop over [v] visits. *)
Definition iter (v : json) : result (list json) :=
  match v with
  | JList items => Ok items
  | JDict fields => Ok (map (fun kv => JStr (fst kv)) fields)
  | JStr s => Ok (chars s)
  | _ => Raise (Exn TypeError "object is not iterable")
  end.

End PyVal.

(* ------------------------------------------------------------------ *)
(** ** The filesystem *)

(** What [stat] reports for a regular file, its bytes, and the error (if
    any) that [unlink] raises for it.  When the entry is a symbolic link to
    the file, [f_via] names the entries of the managed directory that the
    link goes through (its target, and links in between, as far as they
    are entries of that directory): once one of them is removed the link
    dangles.  For a file that is no link, or a link whose target lies
    elsewhere, [f_via] is empty. *)
Record file : Type := File_ {
  f_content : list byte;
  f_mtime : Z;
  f_ctime : Z;
  f_unlink_error : option string;
  f_via : list string
}.

(** The tree as [stat] sees it, symbolic links followed: a link to a
    regular file is that file, a link to a directory is that directory, and
    a dangling link, socket, fifo or device is [Special].  The process may
    search every directory of the tree and read every file. *)
Inductive node : Type :=
| File (f : file)
| Dir (children : list (string * node))
| Special.

(** One level above the managed directory: the name under which we came
    down, and the other entries of that parent. *)
Record frame : Type := Frame {
  fr_name : string;
  fr_siblings : list (string * node)
}.

(** The filesystem, focused on the managed directory (DOWNLOAD_FOLDER, which
    line 43 creates at start-up): its entries in enumeration order, and the
    directories above it, innermost first. *)
Record filesystem : Type := Fs {
  managed : list (string * node);
  above : list frame
}.

Module Path.

(** The directories above [cur], parent first, root last. *)
Fixpoint ancestors (cur : node) (fr : list frame) : list node :=
  match fr with
  | [] => []
  | f :: fr' =>
      let parent := Dir ((fr_name f, cur) :: fr_siblings f) in
      parent :: ancestors parent fr'
  end.

Definition root (fsys : filesystem) : node :=
  last (ancestors (Dir (managed fsys)) (above fsys)) (Dir (managed fsys)).

(** Kernel path resolution from [cur], whose ancestors are [anc]: a name
    needs a directory that has it, [..] needs a directory and steps up
    (the root is its own parent). *)
Fixpoint walk (cur : node) (anc : list node) (comps : list string)
  : option node :=
  match comps with
  | [] => Some cur
  | c :: cs =>
      match cur with
      | Dir children =>
          if (c =? "..")%string then
            match anc with
            | [] => walk cur [] cs
            | p :: anc' => walk p anc' cs
            end
          else
            match lookup c children with
            | Some n => walk n (cur :: anc) cs
            | None => None
            end
      | _ => None
      end
  end.

(** A pathlib path built by [DOWNLOAD_FOLDER / filename]: pathlib drops
    empty and [.] components and keeps [..]; an absolute right operand
    replaces the left one. *)
Record t : Type := Mk { absolute : bool; parts : list string }.

Definition keep_part (c : string) : bool :=
  negb (c =? "")%string && negb (c =? ".")%string.

(** [DOWNLOAD_FOLDER / filename] *)
Definition under_download_folder (filename : string) : t :=
  Mk (PyStr.starts_with_slash filename)
     (filter keep_part (PyStr.split_slash filename)).

(** The node a path leads to, if any. *)
Definition resolve (fsys : filesystem) (p : t) : option node :=
  if absolute p then walk (root fsys) [] (parts p)
  else walk (Dir (managed fsys))
            (ancestors (Dir (managed fsys)) (above fsys)) (parts p).

(** [p.exists()] *)
Definition exists_ (fsys : filesystem) (p : t) : bool :=
  match resolve fsys p with Some _ => true | None => false end.

(** [p.is_file()] *)
Definition is_file (fsys : filesystem) (p : t) : bool :=
  match resolve fsys p with Some (File _) => true | _ => false end.

End Path.

(* ------------------------------------------------------------------ *)
(** ** Requests, responses and the world the handlers run in *)

(** Library functions whose results the handlers only pass on:
    [datetime.fromtimestamp(t).isoformat()], [humanize.naturalsize(n)] and
    [datetime.fromtimestamp(t).strftime("%Y%m%d_%H%M%S")].  The two
    [datetime] texts are those of a time stamp that falls in the years 1 to
    9999 of the local zone; for any other [fromtimestamp] raises. *)
Class PyRuntime : Type := {
  isoformat : Z -> string;
  naturalsize : Z -> string;
  strftime_compact : Z -> string
}.

(** [request.form] and [request.args], in the order the client sent them. *)
Record Request : Type := Req {
  form : list (string * string);
  args : list (string * string)
}.

(** [multidict.get(key, default)] *)
Definition multi_get (key default : string) (d : list (string * string)) : string :=
  match lookup key d with
  | Some v => v
  | None => default
  end.

(** [multidict.getlist(key)] *)
Definition multi_getlist (key : string) (d : list (string * string)) : list string :=
  map snd (filter (fun kv => (fst kv =? key)%string) d).

Inductive payload : Type :=
| FileBytes (bytes : list byte)
| ZipArchive (entries : list (string * list byte)).

(** What a view returns: a JSON body with a status, or a download.  A
    [mimetype] of [None] is the one the library guesses from the name. *)
Inductive Response : Type :=
| JsonResp (status : Z) (body : json)
| Attachment (mimetype : option string) (download_name : string) (data : payload).

(** [jsonify(v)] and [jsonify({"error": msg}), status] *)
Definition jsonify (v : json) : Response := JsonResp 200 v.
Definition json_error (msg : string) (status : Z) : Response :=
  JsonResp status (JDict [("error", JStr msg)]).

Record World : Type := MkWorld {
  fs : filesystem;
  clock : Z;                                   (* datetime.now().timestamp() *)
  disk : Z * Z * Z;                            (* total, used, free *)
  enum_fault : option (nat * string);          (* iterdir stops with OSError *)
  provider : string -> Z -> result json;       (* VideosSearch(q, limit).result() *)
  provider_calls : list (string * Z);
  memo : list ((string * Z) * (Z * list json));            (* cache.memoize *)
  view_cache : list (list (string * string) * (Z * Response));  (* cache.cached *)
  log : list string                            (* what logger.error wrote *)
}.

Definition set_fs (x : filesystem) (w : World) : World :=
  MkWorld x (clock w) (disk w) (enum_fault w) (provider w) (provider_calls w)
          (memo w) (view_cache w) (log w).
Definition set_provider_calls (x : list (string * Z)) (w : World) : World :=
  MkWorld (fs w) (clock w) (disk w) (enum_fault w) (provider w) x
          (memo w) (view_cache w) (log w).
Definition set_memo (x : list ((string * Z) * (Z * list json))) (w : World) : World :=
  MkWorld (fs w) (clock w) (disk w) (enum_fault w) (provider w) (provider_calls w)
          x (view_cache w) (log w).
Definition set_view_cache (x : list (list (string * string) * (Z * Response)))
           (w : World) : World :=
  MkWorld (fs w) (clock w) (disk w) (enum_fault w) (provider w) (provider_calls w)
          (memo w) x (log w).
Definition set_log (x : list string) (w : World) : World :=
  MkWorld (fs w) (clock w) (disk w) (enum_fault w) (provider w) (provider_calls w)
          (memo w) (view_cache w) x.
Definition set_enum_fault (x : option (nat * string)) (w : World) : World :=
  MkWorld (fs w) (clock w) (disk w) x (provider w) (provider_calls w)
          (memo w) (view_cache w) (log w).

(** The handler monad: a world in, a value or an exception and a world out. *)
Definition M (A : Type) : Type := World -> result A * World.

Definition ret {A : Type} (a : A) : M A := fun w => (Ok a, w).

Definition raise {A : Type} (e : exn) : M A := fun w => (Raise e, w).

Definition bind {A B : Type} (m : M A) (k : A -> M B) : M B :=
  fun w =>
    match m w with
    | (Ok a, w') => k a w'
    | (Raise e, w') => (Raise e, w')
    end.

(** [try: m  except Exception as e: h e] *)
Definition try_except {A : Type} (m : M A) (h : exn -> M A) : M A :=
  fun w =>
    match m w with
    | (Ok a, w') => (Ok a, w')
    | (Raise e, w') => h e w'
    end.

Definition lift {A : Type} (r : result A) : M A := fun w => (r, w).

Declare Scope py_scope.
Delimit Scope py_scope with py.
Notation "x <- m ;; k" := (bind m (fun x => k))
  (at level 61, m at next level, right associativity) : py_scope.
Notation "' pat <- m ;; k" := (bind m (fun x => match x with pat => k end))
  (at level 61, pat pattern, m at next level, right associativity) : py_scope.
Notation "m ;;; k" := (bind m (fun _ => k))
  (at level 61, right associativity) : py_scope.
Local Open Scope py_scope.

(** Binding in [result] alone, for code that touches no state. *)
Definition rbind {A B : Type} (r : result A) (k : A -> result B) : result B :=
  match r with
  | Ok a => k a
  | Raise e => Raise e
  end.
Notation "x <~ r ;; k" := (rbind r (fun x => k))
  (at level 61, r at next level, right associativity) : py_scope.

(** *** Primitive operations *)

Module Os.

(** The path of the entry [name] of the managed directory, as [iterdir]
    yields it. *)
Definition child (name : string) : Path.t := Path.Mk false [name].

(** [p.exists()] and [p.is_file()], for a path within the length limits of
    the kernel (beyond them both methods raise OSError). *)
Definition exists_ (p : Path.t) : M bool :=
  fun w => (Ok (Path.exists_ (fs w) p), w).

Definition is_file (p : Path.t) : M bool :=
  fun w => (Ok (Path.is_file (fs w) p), w).

(** [p.stat()] of a regular file. *)
Definition stat (p : Path.t) : M file :=
  fun w =>
    match Path.resolve (fs w) p with
    | Some (File f) => (Ok f, w)
    | _ => (Raise (Exn OSError "stat failed"), w)
    end.

(** Reading the bytes of a regular file. *)
Definition read_bytes (p : Path.t) : M (list byte) :=
  fun w =>
    match Path.resolve (fs w) p with
    | Some (File f) => (Ok (f_content f), w)
    | _ => (Raise (Exn OSError "cannot read"), w)
    end.

(** [DOWNLOAD_FOLDER.iterdir()]: the names the generator yields, in
    enumeration order, and the [OSError] with which it stops when the
    world schedules one after [k] entries. *)
Definition iterdir : M (list string * option exn) :=
  fun w =>
    let names := map fst (managed (fs w)) in
    match enum_fault w with
    | None => (Ok (names, None), w)
    | Some (k, msg) => (Ok (firstn k names, Some (Exn OSError msg)), w)
    end.

Definition remove_entry (name : string) (l : list (string * node))
  : list (string * node) :=
  filter (fun e => negb (fst e =? name)%string) l.

(** The links that went through the entry [name] dangle once it is gone. *)
Definition detach (name : string) (l : list (string * node))
  : list (string * node) :=
  map (fun e =>
         match snd e with
         | File f =>
             if existsb (String.eqb name) (f_via f) then (fst e, Special)
             else e
         | _ => e
         end) l.

(** The managed directory after the entry [name] has been removed. *)
Definition without (name : string) (l : list (string * node))
  : list (string * node) :=
  detach name (remove_entry name l).

(** [(DOWNLOAD_FOLDER / name).unlink()] *)
Definition unlink (name : string) : M unit :=
  fun w =>
    match lookup name (managed (fs w)) with
    | Some (File f) =>
        match f_unlink_error f with
        | Some msg => (Raise (Exn OSError msg), w)
        | None =>
            (Ok tt, set_fs (Fs (without name (managed (fs w)))
                               (above (fs w))) w)
        end
    | Some (Dir _) => (Raise (Exn OSError "Is a directory"), w)
    | Some Special =>
        (Ok tt, set_fs (Fs (without name (managed (fs w)))
                           (above (fs w))) w)
    | None => (Raise (Exn OSError "No such file or directory"), w)
    end.

(** [datetime.now().timestamp()] *)
Definition now : M Z := fun w => (Ok (clock w), w).

(** [shutil.disk_usage(DOWNLOAD_FOLDER)] *)
Definition disk_usage : M (Z * Z * Z) := fun w => (Ok (disk w), w).

(** [logger.error(msg)] *)
Definition log_error (msg : string) : M unit :=
  fun w => (Ok tt, set_log (log w ++ [msg]) w).

End Os.

(** The names bound at module level in app.py: its imports (lines 1-17), the
    objects it creates (lines 23-54) and its functions. *)
Definition module_globals : list string :=
  [ "os"; "io"; "json"; "zipfile"; "logging"; "datetime"; "Path"; "wraps";
    "Flask"; "request"; "jsonify"; "send_from_directory"; "send_file";
    "render_template"; "Cache"; "Limiter"; "get_remote_address";
    "load_dotenv"; "humanize"; "VideosSearch"; "yt_dlp";
    "app"; "cache"; "limiter"; "DOWNLOAD_FOLDER"; "logger";
    "allowed_file"; "get_file_info"; "index"; "handle_post_request";
    "search_youtube"; "download_youtube_video"; "handle_youtube_search";
    "handle_youtube_download"; "handle_file_download"; "handle_zip_download";
    "handle_get_files"; "api_get_files"; "api_disk_usage"; "api_cleanup";
    "not_found"; "internal_error" ].

(** Evaluating a global name that is not a builtin. *)
Definition global_name (name : string) : M unit :=
  if existsb (String.eqb name) module_globals then ret tt
  else raise (Exn NameError ("name '" ++ name ++ "' is not defined")).

(** [p.name]: the last component. *)
Definition path_name (p : Path.t) : string := last (Path.parts p) "".

(** The text of [name] from its last dot on, if it has a dot. *)
Fixpoint from_last_dot (name : string) : option string :=
  match name with
  | EmptyString => None
  | String c rest =>
      match from_last_dot rest with
      | Some t => Some t
      | None => if (c =? ".")%char then Some name else None
      end
  end.

(** [p.suffix]: [name[i:]] for [i = name.rfind('.')] when
    [0 < i < len(name) - 1], else the empty string. *)
Definition path_suffix (p : Path.t) : string :=
  let name := path_name p in
  match from_last_dot name with
  | Some t =>
      if ((String.length t <? String.length name)
          && (1 <? String.length t))%nat
      then t else ""
  | None => ""
  end.

(* ------------------------------------------------------------------ *)
(** ** Library behaviour the views rely on *)

Module Werkzeug.

(** [posixpath.normpath] on the components of a path; [acc] is the stack
    of kept components, top first. *)
Fixpoint norm_comps (rooted : bool) (comps acc : list string) : list string :=
  match comps with
  | [] => rev acc
  | c :: cs =>
      if (c =? "")%string || (c =? ".")%string then norm_comps rooted cs acc
      else if negb (c =? "..")%string
              || (negb rooted && match acc with [] => true | _ => false end)
              || match acc with top :: _ => (top =? "..")%string | [] => false end
      then norm_comps rooted cs (c :: acc)
      else match acc with
           | [] => norm_comps rooted cs acc
           | _ :: acc' => norm_comps rooted cs acc'
           end
  end.

(** [safe_join(directory, filename)]: the components below [directory],
    or [None] when the normalised name is absolute, is [..], or starts
    with [../]. *)
Definition safe_join (filename : string) : option (list string) :=
  let rooted := PyStr.starts_with_slash filename in
  let comps := norm_comps rooted (PyStr.split_slash filename) [] in
  if rooted then None
  else match comps with
       | c :: _ => if (c =? "..")%string then None else Some comps
       | [] => Some []
       end.

(** [send_from_directory(DOWNLOAD_FOLDER, path, as_attachment=True,
    download_name=...)]: NotFound unless the safe join is a regular file.
    The file is sent under [download_name], a name without line breaks
    (werkzeug refuses to put any other into a header). *)
Definition send_from_directory (path download_name : string) : M Response :=
  fun w =>
    match safe_join path with
    | None => (Raise (Exn HTTPNotFound "404 Not Found"), w)
    | Some comps =>
        match Path.resolve (fs w) (Path.Mk false comps) with
        | Some (File f) =>
            (Ok (Attachment None download_name (FileBytes (f_content f))), w)
        | _ => (Raise (Exn HTTPNotFound "404 Not Found"), w)
        end
    end.

End Werkzeug.

(** Lines 286-293: the handlers Flask calls for NotFound and for any other
    exception that leaves a view. *)
Definition not_found : Response := json_error "Not found" 404.

Definition internal_error (error : exn) : M Response :=
  Os.log_error ("Server error: " ++ exn_text error) ;;;
  ret (json_error "Internal server error" 500).

(** The error Flask hands to the 500 handler when an exception that is no
    HTTP error leaves a view: an [InternalServerError] that wraps it, whose
    text is the HTTP description. *)
Definition internal_server_error : exn :=
  Exn OtherError
      ("500 Internal Server Error: The server encountered an internal "
       ++ "error and was unable to complete your request. Either the "
       ++ "server is overloaded or there is an error in the application.").

(** Flask running a view for a request that the rate limiter has let
    through: the response the client receives. *)
Definition flask_run (view : M Response) (w : World) : Response * World :=
  match view w with
  | (Ok r, w') => (r, w')
  | (Raise e, w') =>
      match exn_class e with
      | HTTPNotFound => (not_found, w')
      | _ =>
          match internal_error internal_server_error w' with
          | (Ok r, w'') => (r, w'')
          | (Raise _, w'') => (json_error "Internal Server Error" 500, w'')
          end
      end
  end.

(** [cache.cached(timeout, query_string=True)]: a stored response is served
    while it is fresh; the key is made of the query arguments of the
    request, sorted. *)
Definition cache_get {K V : Type} (eqb : K -> K -> bool) (now : Z) (k : K)
           (c : list (K * (Z * V))) : option V :=
  match find (fun e => eqb (fst e) k) c with
  | Some (_, (expires, v)) => if now <? expires then Some v else None
  | None => None
  end.

Fixpoint args_eqb (a b : list (string * string)) : bool :=
  match a, b with
  | [], [] => true
  | (k, v) :: a', (k', v') :: b' =>
      (k =? k')%string && (v =? v')%string && args_eqb a' b'
  | _, _ => false
  end.

(** [(k, v) < (k', v')] on pairs of strings. *)
Definition pair_lt (a b : string * string) : bool :=
  match String.compare (fst a) (fst b) with
  | Lt => true
  | Eq => PyStr.str_lt (snd a) (snd b)
  | Gt => false
  end.

Fixpoint insert_pair (x : string * string) (l : list (string * string))
  : list (string * string) :=
  match l with
  | [] => [x]
  | y :: l' => if pair_lt x y then x :: l else y :: insert_pair x l'
  end.

(** [tuple(sorted(request.args.items(multi=True)))] *)
Fixpoint sorted_args (a : list (string * string)) : list (string * string) :=
  match a with
  | [] => []
  | x :: a' => insert_pair x (sorted_args a')
  end.

Definition cached (timeout : Z) (key : list (string * string))
           (view : M Response) : M Response :=
  fun w =>
    match cache_get args_eqb (clock w) key (view_cache w) with
    | Some r => (Ok r, w)
    | None =>
        match view w with
        | (Ok r, w') =>
            (Ok r, set_view_cache ((key, (clock w' + timeout, r)) :: view_cache w') w')
        | (Raise e, w') => (Raise e, w')
        end
    end.

Definition key_eqb (a b : string * Z) : bool :=
  (fst a =? fst b)%string && (snd a =? snd b).

(** [cache.memoize(timeout)], keyed by the arguments of the call. *)
Definition memoize (timeout : Z) (key : string * Z) (body : M (list json))
  : M (list json) :=
  fun w =>
    match cache_get key_eqb (clock w) key (memo w) with
    | Some v => (Ok v, w)
    | None =>
        match body w with
        | (Ok v, w') =>
            (Ok v, set_memo ((key, (clock w' + timeout, v)) :: memo w') w')
        | (Raise e, w') => (Raise e, w')
        end
    end.

(** Python's stable [list.sort(key=..., reverse=True)] on string keys: the
    result is in non-increasing key order and records with equal keys keep
    their order. *)
Section Sort.
Variable A : Type.
Variable key : A -> string.

Fixpoint insert_desc (x : A) (l : list A) : list A :=
  match l with
  | [] => [x]
  | y :: l' =>
      if PyStr.str_lt (key x) (key y) then y :: insert_desc x l'
      else x :: l
  end.

Fixpoint sort_desc (l : list A) : list A :=
  match l with
  | [] => []
  | x :: l' => insert_desc x (sort_desc l')
  end.
End Sort.

(* ------------------------------------------------------------------ *)
(** ** The program *)

(** The dict [get_file_info] returns (lines 64-72). *)
Record FileInfo : Type := Info {
  fi_filename : string;
  fi_size : Z;
  fi_size_formatted : string;
  fi_extension : string;
  fi_created : string;
  fi_modified : string;
  fi_selected : bool
}.

Definition json_of_info (i : FileInfo) : json :=
  JDict [ ("filename", JStr (fi_filename i));
          ("size", JInt (fi_size i));
          ("size_formatted", JStr (fi_size_formatted i));
          ("extension", JStr (fi_extension i));
          ("created", JStr (fi_created i));
          ("modified", JStr (fi_modified i));
          ("selected", JBool (fi_selected i)) ].

Section Program.
Context {RT : PyRuntime}.

(** Lines 61-72. *)
Definition get_file_info (filepath : Path.t) : M FileInfo :=
  stat <- Os.stat filepath ;;
  let st_size := Z.of_nat (List.length (f_content stat)) in
  ret (Info (path_name filepath)
            st_size
            (naturalsize st_size)
            (PyStr.lower (path_suffix filepath))
            (isoformat (f_ctime stat))
            (isoformat (f_mtime stat))
            false).

(** Lines 186-201. *)
Definition handle_file_download (request : Request) : M Response :=
  let filename := PyStr.strip (multi_get "filename" "" (form request)) in
  if negb (PyStr.truthy filename) then
    ret (json_error "No filename provided" 400)
  else
    let filepath := Path.under_download_folder filename in
    ex <- Os.exists_ filepath ;;
    isf <- (if ex then Os.is_file filepath else ret false) ;;
    if negb ex || negb isf then
      ret (json_error "File not found" 404)
    else
      Werkzeug.send_from_directory filename filename.

(** The name [zf.write(path, arcname)] gives the entry of a regular file:
    [os.path.normpath(arcname)] without its leading slashes.  A name that
    is nothing but slashes has no such form ([arcname[0]] fails). *)
Definition zip_arcname (arcname : string) : result string :=
  let rooted := PyStr.starts_with_slash arcname in
  match Werkzeug.norm_comps rooted (PyStr.split_slash arcname) [] with
  | [] => if rooted then Raise (Exn IndexError "string index out of range")
          else Ok "."
  | comps => Ok (String.concat "/" comps)
  end.

(** Lines 212-215: the loop that fills the archive, for files whose
    modification time a zip entry can carry. *)
Fixpoint zip_loop (filenames : list string) (zf : list (string * list byte))
  : M (list (string * list byte)) :=
  match filenames with
  | [] => ret zf
  | filename :: rest =>
      let filepath := Path.under_download_folder filename in
      ex <- Os.exists_ filepath ;;
      isf <- (if ex then Os.is_file filepath else ret false) ;;
      if ex && isf then
        bytes <- Os.read_bytes filepath ;;
        arcname <- lift (zip_arcname filename) ;;
        zip_loop rest (zf ++ [(arcname, bytes)])
      else zip_loop rest zf
  end.

(** Lines 203-224. *)
Definition handle_zip_download (request : Request) : M Response :=
  let filenames := multi_getlist "filenames[]" (form request) in
  match filenames with
  | [] => ret (json_error "No files selected" 400)
  | _ =>
      memory_file <- zip_loop filenames [] ;;
      now <- Os.now ;;
      let timestamp := strftime_compact now in
      ret (Attachment (Some "application/zip")
                      ("downloads_" ++ timestamp ++ ".zip")
                      (ZipArchive memory_file))
  end.

(** Lines 232-236: the loop of the listing.  The result is the list
    [files] when the loop ends and the exception that ended it, if any. *)
Fixpoint collect_files (query : string) (names : list string)
         (files : list FileInfo) : M (list FileInfo * option exn) :=
  match names with
  | [] => ret (files, None)
  | name :: rest =>
      let filepath := Os.child name in
      isf <- Os.is_file filepath ;;
      if isf then
        if PyStr.truthy query
           && negb (PyStr.contains query (PyStr.lower (path_name filepath)))
        then collect_files query rest files
        else
          fun w =>
            match get_file_info filepath w with
            | (Ok info, w') => collect_files query rest (files ++ [info]) w'
            | (Raise e, w') => (Ok (files, Some e), w')
            end
      else collect_files query rest files
  end.

(** Lines 226-243. *)
Definition handle_get_files (request : Request) : M Response :=
  let query := PyStr.strip (PyStr.lower (multi_get "query" "" (form request))) in
  '(names, stop) <- Os.iterdir ;;
  '(files, exc) <- collect_files query names [] ;;
  files <- match exc, stop with
           | Some e, _ | None, Some e =>
               Os.log_error ("File listing error: " ++ exn_text e) ;;;
               ret files
           | None, None => ret (sort_desc fi_modified files)
           end ;;
  ret (jsonify (JList (map json_of_info files))).

(** Lines 245-250: the query read from [request.args] is not passed on. *)
Definition api_get_files (request : Request) : M Response :=
  cached 60 (sorted_args (args request))
    (let query := PyStr.strip (PyStr.lower (multi_get "q" "" (args request))) in
     handle_get_files request).

(** [round(used / total * 100, 2)], in hundredths; the quotient is taken
    exactly and rounded to the nearest hundredth, ties to even. *)
Definition percent_hundredths (used total : Z) : result Z :=
  if total =? 0 then Raise (Exn ZeroDivisionError "division by zero")
  else
    let n := used * 10000 in
    let q := n / total in
    let r2 := 2 * (n mod total) in
    Ok (if Z.abs r2 <? Z.abs total then q
        else if Z.abs total <? Z.abs r2 then q + 1
        else if Z.even q then q else q + 1).

(** Lines 252-261.  The body names [shutil], which the module never
    imports. *)
Definition api_disk_usage (request : Request) : M Response :=
  global_name "shutil" ;;;
  '(total, used, free) <- Os.disk_usage ;;
  pct <- lift (percent_hundredths used total) ;;
  ret (jsonify (JDict [ ("total", JStr (naturalsize total));
                        ("used", JStr (naturalsize used));
                        ("free", JStr (naturalsize free));
                        ("percent_used", JRat pct 100) ])).

(** Lines 272-278: the loop of the clean-up; [deleted] and [errors] are
    the two lists it appends to. *)
Fixpoint cleanup_loop (cutoff : Z) (names : list string)
         (deleted errors : list string) : M (list string * list string) :=
  match names with
  | [] => ret (deleted, errors)
  | name :: rest =>
      let filepath := Os.child name in
      isf <- Os.is_file filepath ;;
      old <- (if isf then
                st <- Os.stat filepath ;;
                ret (f_mtime st <? cutoff)
              else ret false) ;;
      if old then
        failure <- try_except (Os.unlink name ;;; ret None)
                              (fun e => ret (Some (exn_text e))) ;;
        match failure with
        | None => cleanup_loop cutoff rest (deleted ++ [path_name filepath]) errors
        | Some msg => cleanup_loop cutoff rest deleted (errors ++ [msg])
        end
      else cleanup_loop cutoff rest deleted errors
  end.

(** Lines 280-284: the report of the clean-up. *)
Definition cleanup_report (deleted errors : list string) : Response :=
  jsonify (JDict
    [ ("deleted", JList (map JStr deleted));
      ("errors", JList (map JStr errors));
      ("message", JStr ("Deleted "
                        ++ PyStr.str_of_nat (List.length deleted)
                        ++ " file(s)")) ]).

(** [int(request.form.get('days', 30))] *)
Definition days_of (request : Request) : M Z :=
  match lookup "days" (form request) with
  | None => ret 30
  | Some text =>
      match PyStr.py_int text with
      | Some d => ret d
      | None => raise (Exn ValueError "invalid literal for int() with base 10")
      end
  end.

(** The double nearest to a whole number, ties to the even mantissa. *)
Definition round_to_double (z : Z) : Z :=
  let a := Z.abs z in
  if a <? 2 ^ 53 then z
  else
    let e := Z.log2 a - 52 in
    let q := a / 2 ^ e in
    let r := a mod 2 ^ e in
    let half := 2 ^ (e - 1) in
    let q' := if r <? half then q
              else if half <? r then q + 1
              else if Z.even q then q else q + 1 in
    Z.sgn z * (q' * 2 ^ e).

(** The conversion of an [int] operand of a float operation. *)
Definition float_of_int (n : Z) : result Z :=
  let x := round_to_double n in
  if 2 ^ 1024 <=? Z.abs x
  then Raise (Exn OverflowError "int too large to convert to float")
  else Ok x.

(** Line 267: [now - (days * 24 * 60 * 60)], a float minus an int. *)
Definition cutoff_of (now days : Z) : result Z :=
  seconds <~ float_of_int (days * 24 * 60 * 60) ;;
  Ok (round_to_double (now - seconds)).

(** Lines 263-284. *)
Definition api_cleanup (request : Request) : M Response :=
  days <- days_of request ;;
  now <- Os.now ;;
  cutoff <- lift (cutoff_of now days) ;;
  '(names, stop) <- Os.iterdir ;;
  '(deleted, errors) <- cleanup_loop cutoff names [] [] ;;
  match stop with
  | Some e => raise e
  | None => ret (cleanup_report deleted errors)
  end.

(** [VideosSearch(query, limit=limit).result()]: the provider is
    contacted, and the call is counted. *)
Definition videos_search (query : string) (limit : Z) : M json :=
  fun w =>
    (provider w query limit,
     set_provider_calls (provider_calls w ++ [(query, limit)]) w).

(** Lines 107-115: one formatted result. *)
Definition format_item (item : json) : result json :=
  title <~ PyVal.get item "title" (JStr "No title") ;;
  url <~ PyVal.get item "link" (JStr "") ;;
  thumbnails <~ PyVal.get item "thumbnails" (JList [JDict []]) ;;
  first <~ PyVal.index0 thumbnails ;;
  thumbnail <~ PyVal.get first "url" (JStr "") ;;
  duration <~ PyVal.get item "duration" (JStr "N/A") ;;
  channel <~ PyVal.get item "channel" (JDict []) ;;
  channel_name <~ PyVal.get channel "name" (JStr "Unknown") ;;
  view_count <~ PyVal.get item "viewCount" (JDict []) ;;
  views <~ PyVal.get view_count "short" (JStr "N/A") ;;
  published <~ PyVal.get item "publishedTime" (JStr "N/A") ;;
  Ok (JDict [ ("title", title); ("url", url); ("thumbnail", thumbnail);
              ("duration", duration); ("channel", channel_name);
              ("views", views); ("published", published) ]).

Fixpoint format_results (items : list json) (formatted_results : list json)
  : result (list json) :=
  match items with
  | [] => Ok formatted_results
  | item :: rest =>
      r <~ format_item item ;;
      format_results rest (formatted_results ++ [r])
  end.

(** Lines 99-119, the function under the decorator. *)
Definition search_youtube_body (query : string) (limit : Z) : M (list json) :=
  try_except
    (results <- videos_search query limit ;;
     found <- lift (PyVal.get results "result" (JList [])) ;;
     items <- lift (PyVal.iter found) ;;
     lift (format_results items []))
    (fun e =>
       Os.log_error ("YouTube search error: " ++ exn_text e) ;;;
       ret []).

(** Lines 98-119. *)
Definition search_youtube (query : string) (limit : Z) : M (list json) :=
  memoize 300 (query, limit) (search_youtube_body query limit).

(** Lines 165-172; [search_youtube(query)] uses the default limit 10. *)
Definition handle_youtube_search (request : Request) : M Response :=
  let query := PyStr.strip (multi_get "query" "" (form request)) in
  if negb (PyStr.truthy query) then ret (jsonify (JList []))
  else
    results <- search_youtube query 10 ;;
    ret (jsonify (JList results)).

End Program.

(** The error taxonomy of the specification, read off the responses the
    views produce.  No response of app.py stands for [PathTraversal]. *)
Inductive ErrorKind : Type :=
| InvalidAction | MissingField | NotFound | EmptySelection
| ProviderError | PathTraversal | InternalError.

Definition error_text (r : Response) : option string :=
  match r with
  | JsonResp _ (JDict [("error", JStr msg)]) => Some msg
  | _ => None
  end.

Definition error_kind (r : Response) : option ErrorKind :=
  match r with
  | JsonResp status _ =>
      match error_text r with
      | Some msg =>
          if status =? 404 then Some NotFound
          else if status =? 500 then Some InternalError
          else if (msg =? "Invalid action")%string then Some InvalidAction
          else if (msg =? "No files selected")%string then Some EmptySelection
          else if (msg =? "No filename provided")%string
                  || (msg =? "No URL provided")%string then Some MissingField
          else None
      | None => None
      end
  | Attachment _ _ _ => None
  end.

(* ------------------------------------------------------------------ *)
(** ** A concrete runtime and sample worlds *)

Module Sample.

Definition digits (n : Z) : string := PyStr.str_of_nat (Z.to_nat n).

Definition pad2 (n : Z) : string :=
  if n <? 10 then "0" ++ digits n else digits n.

Definition pad4 (n : Z) : string :=
  if n <? 10 then "000" ++ digits n
  else if n <? 100 then "00" ++ digits n
  else if n <? 1000 then "0" ++ digits n
  else digits n.

(** Year, month and day of a day count since 1970-01-01 (proleptic
    Gregorian calendar). *)
Definition civil_of_days (days : Z) : Z * Z * Z :=
  let z := days + 719468 in
  let era := z / 146097 in
  let doe := z - era * 146097 in
  let yoe := (doe - doe / 1460 + doe / 36524 - doe / 146096) / 365 in
  let doy := doe - (365 * yoe + yoe / 4 - yoe / 100) in
  let mp := (5 * doy + 2) / 153 in
  let d := doy - (153 * mp + 2) / 5 + 1 in
  let m := if mp <? 10 then mp + 3 else mp - 9 in
  (yoe + era * 400 + (if m <=? 2 then 1 else 0), m, d).

(** Formatting of a time stamp in a process whose local zone is UTC. *)
Definition utc_fields (t : Z) : (Z * Z * Z) * (Z * Z * Z) :=
  let secs := t mod 86400 in
  (civil_of_days (t / 86400), (secs / 3600, (secs / 60) mod 60, secs mod 60)).

Definition utc_isoformat (t : Z) : string :=
  let '((y, m, d), (hh, mm, ss)) := utc_fields t in
  pad4 y ++ "-" ++ pad2 m ++ "-" ++ pad2 d ++ "T"
  ++ pad2 hh ++ ":" ++ pad2 mm ++ ":" ++ pad2 ss.

Definition utc_compact (t : Z) : string :=
  let '((y, m, d), (hh, mm, ss)) := utc_fields t in
  pad4 y ++ pad2 m ++ pad2 d ++ "_" ++ pad2 hh ++ pad2 mm ++ pad2 ss.

(** Sizes below one kilobyte, as humanize prints them; larger sizes are
    shown in kB with one decimal. *)
Definition plain_naturalsize (n : Z) : string :=
  if n =? 1 then "1 Byte"
  else if n <? 1000 then digits n ++ " Bytes"
  else digits (n / 1000) ++ "." ++ digits ((n mod 1000) / 100) ++ " kB".

Definition utc_runtime : PyRuntime := {|
  isoformat := utc_isoformat;
  naturalsize := plain_naturalsize;
  strftime_compact := utc_compact
|}.

Definition bytes_of (s : string) : list byte := list_byte_of_string s.

Definition plain_file (content : string) (mtime : Z) : node :=
  File (File_ (bytes_of content) mtime mtime None []).

Definition stuck_file (content : string) (mtime : Z) (why : string) : node :=
  File (File_ (bytes_of content) mtime mtime (Some why) []).

Definition no_provider (q : string) (limit : Z) : result json :=
  Raise (Exn OtherError "provider unreachable").

Definition world_of (fsys : filesystem) (now : Z) : World :=
  MkWorld fsys now (1000000, 250000, 750000) None no_provider [] [] [] [].

(** /home/user/dl with two files and a subdirectory; /home/user/secret
    lies next to it. *)
Definition home_fs : filesystem :=
  Fs [ ("foo.txt", plain_file "foo" 1700000000);
       ("bar.txt", plain_file "bar" 1700003600);
       ("a", Dir [ ("b", plain_file "nested" 1700000100) ]) ]
     [ Frame "dl" [ ("secret", plain_file "top secret" 1600000000) ];
       Frame "user" [];
       Frame "home" [ ("etc", Dir [ ("passwd", plain_file "root:x:0:0" 1500000000) ]) ] ].

Definition home : World := world_of home_fs 1700010000.

Definition post (fields : list (string * string)) : Request := Req fields [].
Definition get (params : list (string * string)) : Request := Req [] params.

(** A managed directory ten days and 5000 seconds after the epoch: with
    [days = 10] the cutoff is 5000.  Two old files can be removed, one old
    file cannot, one file sits exactly on the cutoff, one is recent; a
    subdirectory and a fifo complete it. *)
Definition attic_fs : filesystem :=
  Fs [ ("old1.mp4", plain_file "aaaa" 1000);
       ("locked.bin", stuck_file "cc" 1500 "Permission denied");
       ("old2.mp3", plain_file "bb" 2000);
       ("edge.txt", plain_file "dd" 5000);
       ("fresh.txt", plain_file "ee" 800000);
       ("sub", Dir [ ("deep.txt", plain_file "x" 10) ]);
       ("pipe", Special) ]
     [ Frame "dl" [] ].

Definition attic : World := world_of attic_fs 869000.

(** The same world when the enumeration stops with an error after [k]
    entries. *)
Definition interrupted (k : nat) (w : World) : World :=
  set_enum_fault (Some (k, "Input/output error")) w.

End Sample.

#[global] Existing Instance Sample.utc_runtime.

(* ------------------------------------------------------------------ *)
(** ** The rest of the program: allow-list, download gateway, dispatcher *)

(** [s.split(sep)] for a one-character separator. *)
Fixpoint py_split (sep : ascii) (s : string) : list string :=
  match s with
  | EmptyString => [EmptyString]
  | String c s' =>
      if (c =? sep)%char then EmptyString :: py_split sep s'
      else match py_split sep s' with
           | [] => [String c EmptyString]
           | h :: t => String c h :: t
           end
  end.

(** ['.' in s] *)
Fixpoint has_dot (s : string) : bool :=
  match s with
  | EmptyString => false
  | String c s' => (c =? ".")%char || has_dot s'
  end.

(** [s.rsplit('.', 1)[1]] for a text that has a dot: what follows the last
    dot.  (Without a dot the index raises; line 59 asks for the dot
    first.) *)
Definition rsplit_dot_last (s : string) : string :=
  match from_last_dot s with
  | Some (String _ ext) => ext
  | _ => ""
  end.

(** The default of [os.getenv('ALLOWED_EXTENSIONS', ...)], line 58. *)
Definition default_allowed_extensions : string :=
  "mp4,mp3,avi,mkv,wav,zip,rar,jpg,png,pdf,txt".

(** Line 58: the allow-list, from the environment variable when it is set. *)
Definition allowed_extensions (env : option string) : list string :=
  py_split "," (match env with
                | Some v => v
                | None => default_allowed_extensions
                end).

(** Lines 56-59. *)
Definition allowed_file (env : option string) (filename : string) : bool :=
  has_dot filename
  && existsb (String.eqb (PyStr.lower (rsplit_dot_last filename)))
             (allowed_extensions env).

(** What the program cannot decide by itself on the download path: the
    download engine ([yt_dlp.YoutubeDL(opts).extract_info(url,
    download=True)], which may change the world), [os.path.getmtime] of an
    entry that is not a regular file, the decorator [limiter.limit
    ("5/minute")], and the page [render_template('index.html')]. *)
Class Collaborators : Type := {
  extract_info : json -> string -> M json;
  getmtime_other : string -> result Z;
  limit_5_per_minute : M Response -> M Response;
  index_page : string
}.

(** [key in v] *)
Definition py_in (key : string) (v : json) : result bool :=
  match v with
  | JDict fields =>
      Ok (match lookup key fields with Some _ => true | None => false end)
  | JList items =>
      Ok (existsb (fun x => match x with
                            | JStr s => (s =? key)%string
                            | _ => false
                            end) items)
  | JStr s => Ok (PyStr.contains key s)
  | _ => Raise (Exn TypeError "argument is not iterable")
  end.

(** [v[key]] for a string key. *)
Definition py_getitem (v : json) (key : string) : result json :=
  match v with
  | JDict fields =>
      match lookup key fields with
      | Some x => Ok x
      | None => Raise (Exn KeyError key)
      end
  | JList _ => Raise (Exn TypeError "list indices must be integers or slices")
  | JStr _ => Raise (Exn TypeError "string indices must be integers")
  | _ => Raise (Exn TypeError "object is not subscriptable")
  end.

(** [str(DOWNLOAD_FOLDER / tail)]: the names from the root down to the
    managed directory, then [tail]. *)
Definition download_folder_join (fsys : filesystem) (tail : string) : string :=
  fold_right (fun f acc => ("/" ++ fr_name f ++ acc)%string)
             ("/" ++ tail)%string
             (rev (above fsys)).

(** [DOWNLOAD_FOLDER.glob('*')]: the entries of the managed directory, dot
    files included, in enumeration order. *)
Definition glob_star : M (list string) :=
  fun w => (Ok (map fst (managed (fs w))), w).

(** Python's stable [sorted(..., key=...)] on integer keys, smallest
    first. *)
Section SortAsc.
Variable A : Type.
Variable key : A -> Z.

Fixpoint insert_asc (x : A) (l : list A) : list A :=
  match l with
  | [] => [x]
  | y :: l' => if key y <? key x then y :: insert_asc x l' else x :: l
  end.

Fixpoint sort_asc (l : list A) : list A :=
  match l with
  | [] => []
  | x :: l' => insert_asc x (sort_asc l')
  end.
End SortAsc.

Section Gateway.
Context {RT : PyRuntime} {CO : Collaborators}.

(** [os.path.getmtime(p)] *)
Definition getmtime (p : Path.t) : M Z :=
  fun w =>
    match Path.resolve (fs w) p with
    | Some (File f) => (Ok (f_mtime f), w)
    | Some _ => (getmtime_other (path_name p), w)
    | None => (Raise (Exn OSError "No such file or directory"), w)
    end.

(** The keys [sorted] computes, one per element, in order. *)
Fixpoint mtime_keys (names : list string) : M (list (Z * string)) :=
  match names with
  | [] => ret []
  | name :: rest =>
      t <- getmtime (Os.child name) ;;
      keyed <- mtime_keys rest ;;
      ret ((t, name) :: keyed)
  end.

(** Lines 151-152: the name of the entry modified last, [None] for an
    empty directory. *)
Definition most_recent_file : M json :=
  names <- glob_star ;;
  keyed <- mtime_keys names ;;
  let files := map snd (sort_asc fst keyed) in
  ret (match rev files with
       | name :: _ => JStr name
       | [] => JNull
       end).

(** Lines 124-141: the options handed to the engine. *)
Definition ydl_opts (fsys : filesystem) (download_type quality : string) : json :=
  let base := [ ("outtmpl", JStr (download_folder_join fsys "%(title)s.%(ext)s"));
                ("quiet", JBool false);
                ("no_warnings", JBool false);
                ("extract_flat", JBool false) ] in
  if (download_type =? "audio")%string then
    JDict (base ++ [ ("format", JStr "bestaudio/best");
                     ("postprocessors",
                      JList [ JDict [ ("key", JStr "FFmpegExtractAudio");
                                      ("preferredcodec", JStr "mp3");
                                      ("preferredquality", JStr "192") ] ]) ])
  else JDict (base ++ [ ("format", JStr quality) ]).

(** Lines 121-163. *)
Definition download_youtube_video (url download_type quality : string) : M json :=
  try_except
    (fun w =>
       (info <- extract_info (ydl_opts (fs w) download_type quality) url ;;
        has_name <- lift (py_in "_filename" info) ;;
        filename <- (if has_name then lift (py_getitem info "_filename")
                     else most_recent_file) ;;
        title <- lift (PyVal.get info "title" (JStr "Unknown")) ;;
        duration <- lift (PyVal.get info "duration" (JInt 0)) ;;
        filesize <- lift (PyVal.get info "filesize" (JInt 0)) ;;
        ret (JDict [ ("status", JStr "success");
                     ("filename", filename);
                     ("title", title);
                     ("duration", duration);
                     ("filesize", filesize) ])) w)
    (fun e =>
       Os.log_error ("YouTube download error: " ++ exn_text e) ;;;
       ret (JDict [ ("status", JStr "error"); ("message", JStr (exn_text e)) ])).

(** Lines 175-184, the function under the decorator. *)
Definition handle_youtube_download_body (request : Request) : M Response :=
  let url := PyStr.strip (multi_get "url" "" (form request)) in
  let download_type := multi_get "type" "video" (form request) in
  if negb (PyStr.truthy url) then
    ret (json_error "No URL provided" 400)
  else
    result <- download_youtube_video url download_type "best" ;;
    ret (jsonify result).

(** Lines 174-184. *)
Definition handle_youtube_download (request : Request) : M Response :=
  limit_5_per_minute (handle_youtube_download_body request).

(** Lines 81-96; [request.form.get("action")] is [None] without the
    field. *)
Definition handle_post_request (request : Request) : M Response :=
  let action := lookup "action" (form request) in
  match action with
  | Some a =>
      if (a =? "search_youtube")%string then handle_youtube_search request
      else if (a =? "download_youtube")%string then handle_youtube_download request
      else if (a =? "download_file")%string then handle_file_download request
      else if (a =? "zip_and_download")%string then handle_zip_download request
      else if (a =? "get_files")%string then handle_get_files request
      else ret (json_error "Invalid action" 400)
  | None => ret (json_error "Invalid action" 400)
  end.

(** What the route [/] returns: the page or a response. *)
Inductive Reply : Type :=
| Page (html : string)
| Answer (r : Response).

(** Lines 74-79. *)
Definition index (method : string) (request : Request) : M Reply :=
  if (method =? "POST")%string then
    r <- handle_post_request request ;;
    ret (Answer r)
  else ret (Page index_page).

End Gateway.

(** The actions the dispatcher knows. *)
Definition known_actions : list string :=
  [ "search_youtube"; "download_youtube"; "download_file";
    "zip_and_download"; "get_files" ].

(** Engines and worlds for the examples of the download path. *)
Module Fixture.

(** An engine that writes one file into the managed directory and reports
    neither its name nor anything else but a title. *)
Definition quiet_engine (opts : json) (url : string) : M json :=
  fun w =>
    (Ok (JDict [("title", JStr "Clip")]),
     set_fs (Fs (managed (fs w)
                 ++ [("Clip.mp4", Sample.plain_file "video" (clock w))])
                (above (fs w))) w).

(** An engine that fails. *)
Definition broken_engine (opts : json) (url : string) : M json :=
  raise (Exn OtherError "Unsupported URL").

Definition pass_through (view : M Response) : M Response := view.

Definition no_mtime (name : string) : result Z :=
  Raise (Exn OSError "cannot stat").

Definition dir_mtime (name : string) : result Z := Ok 1690000000.

Definition quiet : Collaborators :=
  {| extract_info := quiet_engine;
     getmtime_other := dir_mtime;
     limit_5_per_minute := pass_through;
     index_page := "<html>index</html>" |}.

Definition broken : Collaborators :=
  {| extract_info := broken_engine;
     getmtime_other := no_mtime;
     limit_5_per_minute := pass_through;
     index_page := "<html>index</html>" |}.

(** A provider that answers with two well-formed items. *)
Definition two_items (q : string) (limit : Z) : result json :=
  Ok (JDict [ ("result",
               JList [ JDict [ ("title", JStr "one"); ("link", JStr "u1") ];
                       JDict [ ("title", JStr "two");
                               ("thumbnails", JList [ JDict [("url", JStr "t2")] ]) ] ]) ]).

(** A provider whose second item has an empty list of thumbnails. *)
Definition one_bad_item (q : string) (limit : Z) : result json :=
  Ok (JDict [ ("result",
               JList [ JDict [ ("title", JStr "one") ];
                       JDict [ ("title", JStr "two"); ("thumbnails", JList []) ] ]) ]).

Definition with_provider (p : string -> Z -> result json) (w : World) : World :=
  MkWorld (fs w) (clock w) (disk w) (enum_fault w) p (provider_calls w)
          (memo w) (view_cache w) (log w).

(** A symbolic link to the entry [target] of the same directory, as [stat]
    sees it. *)
Definition link_to (target content : string) (mtime : Z) : node :=
  File (File_ (Sample.bytes_of content) mtime mtime None [target]).

(** An old file and a symbolic link to it, the file enumerated first; and
    the same two entries with the link enumerated first. *)
Definition file_then_link : World :=
  Sample.world_of
    (Fs [ ("old.mp4", Sample.plain_file "aaaa" 1000);
          ("alias.mp4", link_to "old.mp4" "aaaa" 1000) ]
        [ Frame "dl" [] ])
    869000.

Definition link_then_file : World :=
  Sample.world_of
    (Fs [ ("alias.mp4", link_to "old.mp4" "aaaa" 1000);
          ("old.mp4", Sample.plain_file "aaaa" 1000) ]
        [ Frame "dl" [] ])
    869000.

(** The sample attic some time later, the caches kept. *)
Definition later (seconds : Z) (w : World) : World :=
  MkWorld (fs w) (clock w + seconds) (disk w) (enum_fault w) (provider w)
          (provider_calls w) (memo w) (view_cache w) (log w).

End Fixture.

(** A process whose local zone is Europe/Berlin, for time stamps between
    the two changes to summer time of March 2023 and March 2024: until
    01:00 UTC on 29 October 2023 local time is two hours ahead of UTC, from
    then on one hour, so the local hour from 02:00 to 03:00 of that day
    comes twice. *)
Module Berlin.

Definition end_of_summer_time : Z := 1698541200.

Definition utc_offset (t : Z) : Z :=
  if t <? end_of_summer_time then 7200 else 3600.

Definition runtime : PyRuntime := {|
  isoformat := fun t => Sample.utc_isoformat (t + utc_offset t);
  naturalsize := Sample.plain_naturalsize;
  strftime_compact := fun t => Sample.utc_compact (t + utc_offset t)
|}.



End Berlin.

(* ------------------------------------------------------------------ *)
(** ** Vocabulary of the properties *)

(** The file names of a listing response. *)
Definition listed_names (r : Response) : list string :=
  match r with
  | JsonResp _ (JList items) =>
      flat_map (fun item =>
                  match item with
                  | JDict (("filename", JStr n) :: _) => [n]
                  | _ => []
                  end) items
  | _ => []
  end.

(** The entries the archive receives: each name, in the order given, that
    resolves from the managed directory to a regular file, with the bytes
    of that file, under the normal form of the name. *)
Definition archive_entries (fsys : filesystem) (names : list string)
  : list (string * list byte) :=
  flat_map (fun n =>
              match Path.resolve fsys (Path.under_download_folder n) with
              | Some (File f) =>
                  match zip_arcname n with
                  | Ok a => [(a, f_content f)]
                  | Raise _ => []
                  end
              | _ => []
              end) names.










(** No entry of the directory is a symbolic link that goes through another
    entry of it. *)
Definition no_inner_links (entries : list (string * node)) : bool :=
  forallb (fun e => match snd e with
                    | File f => match f_via f with [] => true | _ => false end
                    | _ => true
                    end) entries.

(** A directory, or a link to one. *)
Definition is_directory (n : node) : bool :=
  match n with Dir _ => true | _ => false end.

(** The answer of a purge that ran to its end: status 200, the names of
    the deleted files, the messages of the failed removals, and the
    message with the number of deleted files. *)
Definition purge_answer (deleted errors : list string) : Response :=
  JsonResp 200
    (JDict [ ("deleted", JList (map JStr deleted));
             ("errors", JList (map JStr errors));
             ("message",
              JStr ("Deleted " ++ PyStr.str_of_nat (List.length deleted)
                    ++ " file(s)")) ]).

(** The answer to a request whose view raised, and the line that goes to
    the log with it. *)
Definition server_error_answer : Response :=
  JsonResp 500 (JDict [("error", JStr "Internal server error")]).

Definition server_error_line : string :=
  "Server error: 500 Internal Server Error: The server encountered an "
  ++ "internal error and was unable to complete your request. Either the "
  ++ "server is overloaded or there is an error in the application.".

(** A whole number of seconds small enough for float arithmetic on it to be
    exact. *)
Definition exact_seconds (z : Z) : bool := Z.abs z <? 2 ^ 52.



(** Unfolding of the monad and of the read-only primitives. *)
Ltac run_monad :=
  unfold bind, ret, raise, lift, try_except,
         Os.exists_, Os.is_file, Os.read_bytes, Os.now, Os.stat,
         Path.exists_, Path.is_file in *.


(** A name a directory entry can have. *)
Definition valid_name (n : string) : bool :=
  negb (n =? "")%string && negb (n =? ".")%string && negb (n =? "..")%string
  && negb (PyStr.has_slash n).

(** No name occurs twice. *)
Fixpoint distinct (names : list string) : bool :=
  match names with
  | [] => true
  | n :: rest => negb (existsb (String.eqb n) rest) && distinct rest
  end.

(** The entries of a directory have valid names, each once. *)
Definition wf_dir (entries : list (string * node)) : bool :=
  forallb valid_name (map fst entries) && distinct (map fst entries).



(** The regular files among the entries of a directory, in order. *)
Definition regular_files (entries : list (string * node)) : list (string * file) :=
  flat_map (fun e => match snd e with
                     | File f => [(fst e, f)]
                     | _ => []
                     end) entries.

(** [is_file()] of an entry. *)
Definition is_regular (e : string * node) : bool :=
  match snd e with File _ => true | _ => false end.

(** The record of a regular file of the managed directory. *)
Definition info_of {RT : PyRuntime} (e : string * file) : FileInfo :=
  let size := Z.of_nat (List.length (f_content (snd e))) in
  Info (fst e) size (naturalsize size)
       (PyStr.lower (path_suffix (Os.child (fst e))))
       (isoformat (f_ctime (snd e))) (isoformat (f_mtime (snd e))) false.

(** The filter of the listing: every file when the query is empty, the
    files whose lower-cased name contains the query otherwise. *)
Definition matches (query : string) (e : string * file) : bool :=
  negb (PyStr.truthy query && negb (PyStr.contains query (PyStr.lower (fst e)))).


(** An entry the clean-up removes: a regular file older than the cutoff
    whose [unlink] succeeds. *)
Definition doomed (cutoff : Z) (e : string * node) : bool :=
  match snd e with
  | File f =>
      (f_mtime f <? cutoff)
      && match f_unlink_error f with None => true | Some _ => false end
  | _ => false
  end.

(** A regular file older than the cutoff whose [unlink] raises. *)
Definition stuck (cutoff : Z) (e : string * node) : bool :=
  match snd e with
  | File f =>
      (f_mtime f <? cutoff)
      && match f_unlink_error f with None => false | Some _ => true end
  | _ => false
  end.

(** The names of the entries the clean-up removes, in enumeration order. *)
Definition purged_names (cutoff : Z) (entries : list (string * node)) : list string :=
  map fst (filter (doomed cutoff) entries).

(** The messages of the failed removals, in enumeration order. *)
Definition refusals (cutoff : Z) (entries : list (string * node)) : list string :=
  flat_map (fun e =>
              match snd e with
              | File f =>
                  if f_mtime f <? cutoff then
                    match f_unlink_error f with
                    | Some msg => [msg]
                    | None => []
                    end
                  else []
              | _ => []
              end) entries.

(** The entries the clean-up leaves. *)
Definition survivors (cutoff : Z) (entries : list (string * node))
  : list (string * node) :=
  filter (fun e => negb (doomed cutoff e)) entries.




(** [os.path.getmtime] of an entry of the managed directory. *)
Definition entry_mtime {CO : Collaborators} (e : string * node) : result Z :=
  match snd e with
  | File f => Ok (f_mtime f)
  | _ => getmtime_other (fst e)
  end.

(** [info.get(key, default)] for a dict given by its fields. *)
Definition field_or (fields : list (string * json)) (key : string) (default : json)
  : json :=
  match lookup key fields with
  | Some x => x
  | None => default
  end.

(** The body of a successful download outcome (lines 154-160). *)
Definition success_outcome (filename : json) (fields : list (string * json)) : json :=
  JDict [ ("status", JStr "success");
          ("filename", filename);
          ("title", field_or fields "title" (JStr "Unknown"));
          ("duration", field_or fields "duration" (JInt 0));
          ("filesize", field_or fields "filesize" (JInt 0)) ].

(** The body of a failed download outcome (line 163). *)
Definition error_outcome (e : exn) : json :=
  JDict [ ("status", JStr "error"); ("message", JStr (exn_text e)) ].


(* ------------------------------------------------------------------ *)
(** ** Properties *)

(** *** The model on small inputs *)

Example strip_inner_space : PyStr.strip "  a b	 " = "a b".
Proof. reflexivity. Qed.

Example split_keeps_empty_parts :
  PyStr.split_slash "a//b/" = ["a"; ""; "b"; ""].
Proof. reflexivity. Qed.

Example int_of_text :
  PyStr.py_int " -1_000 " = Some (-1000)
  /\ PyStr.py_int "30" = Some 30
  /\ PyStr.py_int "007" = Some 7
  /\ PyStr.py_int "3 0" = None
  /\ PyStr.py_int "- 5" = None
  /\ PyStr.py_int "1__0" = None
  /\ PyStr.py_int "" = None.
Proof. repeat split. Qed.

(** [str.strip] removes the separator characters 28 to 31, [int()] does not
    skip them; the vertical tab is white space for both. *)
Example int_and_separators :
  PyStr.strip (String (ascii_of_nat 28) "10") = "10"
  /\ PyStr.py_int (String (ascii_of_nat 28) "10") = None
  /\ PyStr.py_int (String (ascii_of_nat 11) "10") = Some 10.
Proof. repeat split. Qed.

Example int_digit_limit :
  PyStr.py_int (string_of_list_ascii (repeat "1"%char 4300)) <> None
  /\ PyStr.py_int (string_of_list_ascii (repeat "1"%char 4301)) = None
  /\ PyStr.py_int (string_of_list_ascii (repeat "0"%char 4301)) = None.
Proof. repeat split; vm_compute; try discriminate; reflexivity. Qed.

Example doubles_of_whole_numbers :
  round_to_double (2 ^ 53 + 1) = 2 ^ 53
  /\ round_to_double (2 ^ 53 + 3) = 2 ^ 53 + 4
  /\ round_to_double (10 ^ 23) = 99999999999999991611392
  /\ float_of_int (2 ^ 1024 - 2 ^ 970 - 1) = Ok (2 ^ 1024 - 2 ^ 971)
  /\ float_of_int (2 ^ 1024 - 2 ^ 970)
     = Raise (Exn OverflowError "int too large to convert to float")
  /\ cutoff_of 1700000000 30 = Ok 1697408000
  /\ cutoff_of 1700000000 (10 ^ 320)
     = Raise (Exn OverflowError "int too large to convert to float").
Proof. repeat split; vm_compute; reflexivity. Qed.

Example names_of_zip_entries :
  zip_arcname "a/b" = Ok "a/b"
  /\ zip_arcname "./a//b/" = Ok "a/b"
  /\ zip_arcname "x/../foo.txt" = Ok "foo.txt"
  /\ zip_arcname "../secret" = Ok "../secret"
  /\ zip_arcname "//etc/passwd" = Ok "etc/passwd"
  /\ zip_arcname "/" = Raise (Exn IndexError "string index out of range").
Proof. repeat split. Qed.

Example sorted_query_arguments :
  sorted_args [("q", "b"); ("p", "z"); ("q", "a")]
  = [("p", "z"); ("q", "a"); ("q", "b")].
Proof. reflexivity. Qed.

(** A file that goes takes the links through it along: once old.mp4 is
    removed the link alias.mp4 dangles, is no regular file any more, and is
    left in the directory without a word in the report.  Met first, the
    link is removed like a file. *)
Example purge_and_links :
  flask_run (api_cleanup (Sample.post [("days", "10")])) Fixture.file_then_link
  = (purge_answer ["old.mp4"] [],
     set_fs (Fs [("alias.mp4", Special)] [Frame "dl" []]) Fixture.file_then_link)
  /\ flask_run (api_cleanup (Sample.post [("days", "10")])) Fixture.link_then_file
     = (purge_answer ["alias.mp4"; "old.mp4"] [],
        set_fs (Fs [] [Frame "dl" []]) Fixture.link_then_file).
Proof. split; reflexivity. Qed.

(** A request of the purge with a number of days beyond the range of a
    float ends in the 500 response; nothing is deleted. *)
Example purge_with_huge_days :
  flask_run (api_cleanup
               (Sample.post [("days", string_of_list_ascii
                                        ("1"%char :: repeat "0"%char 320))]))
            Sample.attic
  = (server_error_answer,
     set_log [server_error_line] Sample.attic).
Proof. vm_compute. reflexivity. Qed.

Example suffix_of_names :
  path_suffix (Os.child "clip.tar.GZ") = ".GZ"
  /\ path_suffix (Os.child ".bashrc") = ""
  /\ path_suffix (Os.child "name.") = ""
  /\ path_suffix (Os.child "plain") = "".
Proof. repeat split. Qed.

Example pathlib_join :
  Path.under_download_folder "./a//b/" = Path.Mk false ["a"; "b"]
  /\ Path.under_download_folder "../secret" = Path.Mk false [".."; "secret"]
  /\ Path.under_download_folder "/etc/passwd" = Path.Mk true ["etc"; "passwd"].
Proof. repeat split. Qed.

Example safe_join_cases :
  Werkzeug.safe_join "a/./b" = Some ["a"; "b"]
  /\ Werkzeug.safe_join "a/../b" = Some ["b"]
  /\ Werkzeug.safe_join "a/../../b" = None
  /\ Werkzeug.safe_join "../secret" = None
  /\ Werkzeug.safe_join ".." = None
  /\ Werkzeug.safe_join "/etc/passwd" = None.
Proof. repeat split. Qed.

Example resolution_in_sample_home :
  Path.resolve Sample.home_fs (Path.under_download_folder "foo.txt")
  = Some (Sample.plain_file "foo" 1700000000)
  /\ Path.resolve Sample.home_fs (Path.under_download_folder "../secret")
     = Some (Sample.plain_file "top secret" 1600000000)
  /\ Path.resolve Sample.home_fs (Path.under_download_folder "../dl/a/b")
     = Some (Sample.plain_file "nested" 1700000100)
  /\ Path.resolve Sample.home_fs (Path.under_download_folder "/etc/passwd")
     = Some (Sample.plain_file "root:x:0:0" 1500000000)
  /\ Path.resolve Sample.home_fs (Path.under_download_folder "foo.txt/..") = None
  /\ Path.resolve Sample.home_fs (Path.under_download_folder "nope") = None.
Proof. repeat split. Qed.

Example utc_text_of_time :
  Sample.utc_isoformat 0 = "1970-01-01T00:00:00"
  /\ Sample.utc_isoformat 1700000000 = "2023-11-14T22:13:20"
  /\ Sample.utc_compact 951782400 = "20000229_000000".
Proof. repeat split. Qed.

Example stable_descending_sort :
  sort_desc fst [("b", 1); ("a", 2); ("c", 3); ("b", 4); ("a", 5)]
  = [("c", 3); ("b", 1); ("b", 4); ("a", 2); ("a", 5)].
Proof. reflexivity. Qed.

Example format_item_defaults :
  format_item (JDict [("title", JStr "t"); ("thumbnails", JList [])])
  = Raise (Exn IndexError "list index out of range")
  /\ format_item (JDict [("link", JStr "u")])
     = Ok (JDict [ ("title", JStr "No title"); ("url", JStr "u");
                   ("thumbnail", JStr ""); ("duration", JStr "N/A");
                   ("channel", JStr "Unknown"); ("views", JStr "N/A");
                   ("published", JStr "N/A") ])
  /\ format_item (JStr "x")
     = Raise (Exn AttributeError "object has no attribute 'get'").
Proof. repeat split. Qed.

(** *** Disk usage *)

Lemma shutil_is_unbound : existsb (String.eqb "shutil") module_globals = false.
Proof. reflexivity. Qed.

(** C2 (the code departs from the claim).  The claim says that every call
    of the usage operation returns a report with total, used, free and
    percent_used.  The view evaluates the name [shutil], which app.py never
    imports: for every request and every world it raises NameError before
    the disk is looked at, and the client receives the 500 response of
    [internal_error], which is no usage report. *)
Theorem C2_disk_usage_always_fails :
  forall (RT : PyRuntime) (request : Request) (w : World),
    api_disk_usage request w
    = (Raise (Exn NameError "name 'shutil' is not defined"), w)
    /\ fst (flask_run (api_disk_usage request) w)
       = json_error "Internal server error" 500
    /\ error_kind (fst (flask_run (api_disk_usage request) w))
       = Some InternalError.
Proof.
  intros RT request w.
  assert (E : api_disk_usage request w
              = (Raise (Exn NameError "name 'shutil' is not defined"), w)).
  { unfold api_disk_usage, bind, global_name.
    rewrite shutil_is_unbound. reflexivity. }
  split; [exact E|].
  unfold flask_run. rewrite E. simpl. split; reflexivity.
Qed.

(** *** Listing through the API route *)

(** Whatever [q] the query string carries, a request without form fields
    that misses the cache gets the listing of the plain request. *)
Lemma api_get_files_drops_q :
  forall (RT : PyRuntime) (params : list (string * string)) (w : World),
    cache_get args_eqb (clock w) (sorted_args params) (view_cache w) = None ->
    fst (api_get_files (Req [] params) w) = fst (handle_get_files (Req [] []) w).
Proof.
  intros RT params w Hmiss.
  unfold api_get_files, cached. simpl. rewrite Hmiss.
  change (handle_get_files (Req [] params) w)
    with (handle_get_files (Req [] []) w).
  destruct (handle_get_files (Req [] []) w) as [[r|e] w']; reflexivity.
Qed.

(** C3 (the code departs from the claim).  The claim says that
    GET /api/files?q=<substring> returns exactly the regular files whose
    names contain the substring.  [api_get_files] reads [q] and then calls
    [handle_get_files], which filters on the form field [query] only: with
    [q = "foo"] and a directory holding foo.txt and bar.txt the listing has
    both files, bar.txt first. *)
Theorem C3_api_files_ignores_q :
  listed_names
    (fst (flask_run (api_get_files (Sample.get [("q", "foo")])) Sample.home))
  = ["bar.txt"; "foo.txt"]
  /\ PyStr.contains "foo" (PyStr.lower "bar.txt") = false
  /\ fst (flask_run (api_get_files (Sample.get [("q", "foo")])) Sample.home)
     = fst (flask_run (handle_get_files (Sample.post [])) Sample.home).
Proof. repeat split; vm_compute; reflexivity. Qed.

(** *** Archive *)

Lemma norm_comps_skipped :
  forall (rooted : bool) (comps acc : list string),
    filter Path.keep_part comps = [] ->
    Werkzeug.norm_comps rooted comps acc = rev acc.
Proof.
  induction comps as [|c cs IH]; intros acc H; [reflexivity|].
  simpl in *. unfold Path.keep_part in H.
  destruct (c =? "")%string; simpl in *; [now apply IH|].
  destruct (c =? ".")%string; simpl in *; [now apply IH|discriminate].
Qed.

(** The last component that pathlib keeps, when it is a name, is the last
    component of the normal form. *)
Lemma norm_comps_last :
  forall (rooted : bool) (comps acc pre : list string) (c : string),
    filter Path.keep_part comps = pre ++ [c] ->
    (c =? "..")%string = false ->
    exists acc', Werkzeug.norm_comps rooted comps acc = rev (c :: acc').
Proof.
  induction comps as [|x xs IH]; intros acc pre c H Hc.
  - destruct pre; discriminate.
  - simpl in H. simpl Werkzeug.norm_comps. unfold Path.keep_part in H.
    destruct (x =? "")%string; simpl in H |- *; [now apply (IH _ pre)|].
    destruct (x =? ".")%string; simpl in H |- *; [now apply (IH _ pre)|].
    destruct pre as [|p pre']; simpl in H; injection H as -> Hxs.
    + rewrite Hc. simpl. exists acc. now apply norm_comps_skipped.
    + match goal with
      | |- context [if ?b then _ else _] => destruct b
      end; [|destruct acc]; now apply (IH _ pre').
Qed.




Lemma split_slash_rooted :
  forall s : string,
    PyStr.starts_with_slash s = true ->
    exists rest, PyStr.split_slash s = "" :: rest.
Proof.
  intros [|c s] H; [discriminate|]. simpl in *. rewrite H. eauto.
Qed.


Lemma forallb_last :
  forall (A : Type) (P : A -> bool) (l : list A) (d : A),
    forallb P l = true -> P d = true -> P (last l d) = true.
Proof.
  induction l as [|x l IH]; intros d Hl Hd; [exact Hd|].
  simpl in Hl. apply andb_prop in Hl. destruct Hl as [Hx Hl].
  destruct l as [|y l']; [exact Hx|]. now apply IH.
Qed.

Lemma ancestors_are_directories :
  forall (fr : list frame) (cur : node),
    forallb is_directory (Path.ancestors cur fr) = true.
Proof.
  induction fr as [|f fr IH]; intros cur; [reflexivity|]. simpl. apply IH.
Qed.

(** A path that leads from a directory to a regular file ends in a name. *)
Lemma walk_file_last :
  forall (comps : list string) (cur : node) (anc : list node) (f : file),
    Path.walk cur anc comps = Some (File f) ->
    is_directory cur = true ->
    forallb is_directory anc = true ->
    exists pre c, comps = (pre ++ [c])%list /\ (c =? "..")%string = false.
Proof.
  induction comps as [|c cs IH]; intros cur anc f H Hcur Hanc.
  - simpl in H. injection H as ->. discriminate.
  - destruct cur as [g|children|]; try discriminate. simpl in H.
    destruct (c =? "..")%string eqn:Ec.
    + destruct anc as [|p anc'].
      * destruct (IH _ _ _ H eq_refl eq_refl) as (pre & c' & -> & Hc').
        exists (c :: pre), c'. now split.
      * simpl in Hanc. apply andb_prop in Hanc. destruct Hanc as [Hp Hanc'].
        destruct (IH _ _ _ H Hp Hanc') as (pre & c' & -> & Hc').
        exists (c :: pre), c'. now split.
    + destruct (lookup c children) as [n|] eqn:El; [|discriminate].
      destruct cs as [|c2 cs'].
      * exists [], c. now split.
      * destruct n as [g|ch|]; try discriminate.
        destruct (IH _ _ _ H eq_refl) as (pre & c' & E & Hc').
        { simpl. exact Hanc. }
        exists (c :: pre), c'. rewrite E. now split.
Qed.

(** Every name that leads to a regular file has an entry name. *)
Lemma zip_arcname_of_file :
  forall (fsys : filesystem) (n : string) (f : file),
    Path.resolve fsys (Path.under_download_folder n) = Some (File f) ->
    exists a, zip_arcname n = Ok a.
Proof.
  intros fsys n f H. unfold Path.resolve, Path.under_download_folder in H.
  simpl in H.
  assert (L : exists pre c,
             filter Path.keep_part (PyStr.split_slash n) = (pre ++ [c])%list
             /\ (c =? "..")%string = false).
  { destruct (PyStr.starts_with_slash n).
    - apply (walk_file_last _ _ _ H); [|reflexivity].
      unfold Path.root. apply forallb_last; [|reflexivity].
      apply ancestors_are_directories.
    - apply (walk_file_last _ _ _ H); [reflexivity|].
      apply ancestors_are_directories. }
  destruct L as (pre & c & E & Hc).
  destruct (@norm_comps_last (PyStr.starts_with_slash n) _ [] _ _ E Hc)
    as [acc' Hn].
  unfold zip_arcname. rewrite Hn. simpl.
  destruct (rev acc' ++ [c])%list eqn:R.
  - destruct (rev acc'); discriminate.
  - eauto.
Qed.

Section ArchiveFacts.
Context {RT : PyRuntime}.

Lemma zip_loop_spec :
  forall (names : list string) (zf : list (string * list byte)) (w : World),
    zip_loop names zf w = (Ok (zf ++ archive_entries (fs w) names), w).
Proof.
  induction names as [|n names IH]; intros zf w.
  - simpl. unfold ret. now rewrite app_nil_r.
  - simpl. run_monad.
    destruct (Path.resolve (fs w) (Path.under_download_folder n))
      as [[f|c|]|] eqn:E;
      simpl; rewrite ?E; simpl; rewrite ?E; try (rewrite IH; reflexivity).
    destruct (zip_arcname_of_file _ _ E) as [a Ha]. rewrite Ha.
    rewrite IH. now rewrite <- app_assoc.
Qed.

Lemma handle_zip_download_spec :
  forall (request : Request) (w : World),
    handle_zip_download request w
    = (Ok (match multi_getlist "filenames[]" (form request) with
           | [] => json_error "No files selected" 400
           | names =>
               Attachment (Some "application/zip")
                          ("downloads_" ++ strftime_compact (clock w) ++ ".zip")
                          (ZipArchive (archive_entries (fs w) names))
           end), w).
Proof.
  intros request w. unfold handle_zip_download.
  destruct (multi_getlist "filenames[]" (form request)) as [|n names].
  - reflexivity.
  - unfold bind. rewrite zip_loop_spec. reflexivity.
Qed.



End ArchiveFacts.

(** C10.  An archive call leaves the world as it found it: the filesystem
    (so every file of the managed directory, with its bytes and times), the
    log and the caches after the call are those before it.  The archive is
    assembled in a list in memory and the files are only read. *)
Theorem C10_archive_leaves_directory_untouched :
  forall (RT : PyRuntime) (request : Request) (w : World),
    snd (flask_run (handle_zip_download request) w) = w
    /\ managed (fs (snd (flask_run (handle_zip_download request) w)))
       = managed (fs w).
Proof.
  intros RT request w. unfold flask_run.
  rewrite handle_zip_download_spec. simpl. split; reflexivity.
Qed.




(** *** Well-formed directories *)


Lemma valid_name_parts :
  forall n : string,
    valid_name n = true ->
    PyStr.has_slash n = false /\ (n =? "")%string = false
    /\ (n =? ".")%string = false /\ (n =? "..")%string = false.
Proof.
  intros n H. unfold valid_name in H.
  repeat (apply andb_prop in H; destruct H as [H ?]).
  repeat match goal with
         | X : negb _ = true |- _ => apply negb_true_iff in X
         end.
  auto.
Qed.



Lemma resolve_child :
  forall (fsys : filesystem) (n : string),
    (n =? "..")%string = false ->
    Path.resolve fsys (Os.child n) = lookup n (managed fsys).
Proof.
  intros fsys n H. unfold Path.resolve, Os.child. simpl. rewrite H.
  now destruct (lookup n (managed fsys)).
Qed.


(** *** Fetch *)

Section FetchFacts.
Context {RT : PyRuntime}.



End FetchFacts.




(** *** Search *)

Section SearchFacts.
Context {RT : PyRuntime}.

(** The function under the decorator returns a list whatever happens in
    its [try] block. *)
Lemma search_youtube_body_returns :
  forall (query : string) (limit : Z) (w : World),
    exists results w', search_youtube_body query limit w = (Ok results, w').
Proof.
  intros query limit w. unfold search_youtube_body, try_except.
  match goal with |- context [match ?m w with _ => _ end] =>
    destruct (m w) as [[v|e] w'] end.
  - eauto.
  - unfold bind, Os.log_error, ret. eauto.
Qed.

Lemma search_youtube_body_provider_error :
  forall (query : string) (limit : Z) (w : World) (e : exn),
    provider w query limit = Raise e ->
    search_youtube_body query limit w
    = (Ok [],
       set_log (log w ++ [("YouTube search error: " ++ exn_text e)%string])
               (set_provider_calls (provider_calls w ++ [(query, limit)]) w)).
Proof.
  intros query limit w e H.
  unfold search_youtube_body, try_except, bind, videos_search.
  rewrite H. reflexivity.
Qed.

Lemma search_youtube_returns :
  forall (query : string) (limit : Z) (w : World),
    exists results w', search_youtube query limit w = (Ok results, w').
Proof.
  intros query limit w. unfold search_youtube, memoize.
  destruct (cache_get key_eqb (clock w) (query, limit) (memo w)) as [v|].
  - eauto.
  - destruct (search_youtube_body_returns query limit w) as (v & w' & E).
    rewrite E. eauto.
Qed.

Lemma handle_youtube_search_returns :
  forall (request : Request) (w : World),
    exists results w',
      handle_youtube_search request w = (Ok (jsonify (JList results)), w').
Proof.
  intros request w. unfold handle_youtube_search.
  destruct (negb (PyStr.truthy _)).
  - exists [], w. reflexivity.
  - unfold bind.
    destruct (search_youtube_returns
                (PyStr.strip (multi_get "query" "" (form request))) 10 w)
      as (v & w' & E).
    rewrite E. exists v, w'. reflexivity.
Qed.

End SearchFacts.

(** C7.  The search returns the empty sequence when the query is empty or
    only white space, and then neither the provider nor the cache is
    touched (the world is unchanged); it returns the empty sequence when
    the provider is asked and raises; and in every case the handler
    returns a JSON list, never an exception. *)
Theorem C7_search_fails_soft :
  forall (RT : PyRuntime) (request : Request) (w : World),
    let query := PyStr.strip (multi_get "query" "" (form request)) in
    (exists results w',
        handle_youtube_search request w = (Ok (jsonify (JList results)), w'))
    /\ (query = "" ->
        flask_run (handle_youtube_search request) w = (jsonify (JList []), w))
    /\ (forall (limit : Z) (e : exn),
          provider w query limit = Raise e ->
          cache_get key_eqb (clock w) (query, limit) (memo w) = None ->
          exists w',
            search_youtube query limit w = (Ok [], w')
            /\ provider_calls w' = provider_calls w ++ [(query, limit)])
    /\ (forall e : exn,
          query <> "" ->
          provider w query 10 = Raise e ->
          cache_get key_eqb (clock w) (query, 10) (memo w) = None ->
          fst (flask_run (handle_youtube_search request) w) = jsonify (JList [])).
Proof.
  intros RT request w query.
  split; [apply handle_youtube_search_returns|].
  split; [|split].
  - intros E. unfold flask_run, handle_youtube_search. fold query.
    rewrite E. reflexivity.
  - intros limit e He Hmiss. unfold search_youtube, memoize.
    rewrite Hmiss, (search_youtube_body_provider_error _ _ _ He).
    eexists. split; reflexivity.
  - intros e Hne He Hmiss. apply String.eqb_neq in Hne.
    unfold flask_run, handle_youtube_search. fold query.
    unfold PyStr.truthy. rewrite Hne. simpl.
    unfold bind, search_youtube, memoize.
    rewrite Hmiss, (search_youtube_body_provider_error _ _ _ He).
    reflexivity.
Qed.

(** A blank query, and a query for which the provider raises. *)
Lemma C7_search_fails_soft_witness :
  flask_run (handle_youtube_search (Sample.post [("query", "   ")])) Sample.home
  = (jsonify (JList []), Sample.home)
  /\ (exists w',
        search_youtube "cats" 5 Sample.home = (Ok [], w')
        /\ provider_calls w' = [("cats", 5)])
  /\ fst (flask_run (handle_youtube_search (Sample.post [("query", " cats ")]))
                    Sample.home)
     = jsonify (JList []).
Proof.
  split; [|split].
  - apply (C7_search_fails_soft Sample.utc_runtime
             (Sample.post [("query", "   ")]) Sample.home).
    reflexivity.
  - apply (proj1 (proj2 (proj2
             (C7_search_fails_soft Sample.utc_runtime
                (Sample.post [("query", "cats")]) Sample.home)))
             5 (Exn OtherError "provider unreachable")).
    + reflexivity.
    + reflexivity.
  - apply (proj2 (proj2 (proj2
             (C7_search_fails_soft Sample.utc_runtime
                (Sample.post [("query", " cats ")]) Sample.home)))
             (Exn OtherError "provider unreachable")).
    + discriminate.
    + reflexivity.
    + reflexivity.
Defined.

(** *** Directory tables *)

Lemma existsb_eqb_In :
  forall (n : string) (names : list string),
    existsb (String.eqb n) names = true <-> In n names.
Proof.
  intros n names. rewrite existsb_exists. split.
  - intros (x & Hx & E). apply String.eqb_eq in E. now subst.
  - intros H. exists n. split; [assumption|apply String.eqb_refl].
Qed.

Lemma distinct_NoDup :
  forall names : list string, distinct names = true -> NoDup names.
Proof.
  induction names as [|n names IH]; intros H; [constructor|].
  simpl in H. apply andb_prop in H. destruct H as [H1 H2].
  constructor; [|now apply IH].
  intros Hin. apply existsb_eqb_In in Hin. rewrite Hin in H1. discriminate.
Qed.

Lemma lookup_not_in :
  forall (A : Type) (n : string) (l : list (string * A)),
    ~ In n (map fst l) -> lookup n l = None.
Proof.
  induction l as [|[k v] l IH]; intros H; [reflexivity|].
  simpl in *. destruct (String.eqb_spec n k) as [->|_].
  - exfalso. apply H. now left.
  - apply IH. intros Hin. apply H. now right.
Qed.

Lemma lookup_in_NoDup :
  forall (A : Type) (l : list (string * A)) (n : string) (v : A),
    NoDup (map fst l) -> In (n, v) l -> lookup n l = Some v.
Proof.
  induction l as [|[k x] l IH]; intros n v Hnd Hin; [contradiction|].
  simpl in *. inversion Hnd as [|? ? Hk Hnd']; subst.
  destruct Hin as [E|Hin].
  - inversion E; subst. now rewrite String.eqb_refl.
  - destruct (String.eqb_spec n k) as [->|_].
    + exfalso. apply Hk. change k with (fst (k, v)). now apply in_map.
    + now apply IH.
Qed.

Lemma lookup_app_skip :
  forall (A : Type) (n : string) (l1 l2 : list (string * A)),
    ~ In n (map fst l1) -> lookup n (l1 ++ l2) = lookup n l2.
Proof.
  induction l1 as [|[k v] l1 IH]; intros l2 H; [reflexivity|].
  simpl in *. destruct (String.eqb_spec n k) as [->|_].
  - exfalso. apply H. now left.
  - apply IH. intros Hin. apply H. now right.
Qed.

Lemma wf_dir_parts :
  forall entries : list (string * node),
    wf_dir entries = true ->
    NoDup (map fst entries)
    /\ (forall e, In e entries -> (fst e =? "..")%string = false).
Proof.
  intros entries H. unfold wf_dir in H. apply andb_prop in H.
  destruct H as [Hv Hd]. split; [now apply distinct_NoDup|].
  intros e He. rewrite forallb_forall in Hv.
  apply (valid_name_parts (fst e)). apply Hv. now apply in_map.
Qed.

Lemma wf_dir_lookup :
  forall (entries : list (string * node)) (e : string * node),
    wf_dir entries = true -> In e entries -> lookup (fst e) entries = Some (snd e).
Proof.
  intros entries [n nd] H Hin. apply lookup_in_NoDup; [|exact Hin].
  now apply wf_dir_parts.
Qed.

(** *** Listing *)



Section ListingFacts.
Context {RT : PyRuntime}.

Lemma os_is_file_child :
  forall (w : World) (n : string) (nd : node),
    (n =? "..")%string = false ->
    lookup n (managed (fs w)) = Some nd ->
    Os.is_file (Os.child n) w = (Ok (is_regular (n, nd)), w).
Proof.
  intros w n nd Hn Hl. unfold Os.is_file, Path.is_file.
  rewrite resolve_child, Hl by assumption. now destruct nd.
Qed.

Lemma os_stat_child :
  forall (w : World) (n : string) (f : file),
    (n =? "..")%string = false ->
    lookup n (managed (fs w)) = Some (File f) ->
    Os.stat (Os.child n) w = (Ok f, w).
Proof.
  intros w n f Hn Hl. unfold Os.stat.
  now rewrite resolve_child, Hl by assumption.
Qed.

Lemma get_file_info_child :
  forall (w : World) (n : string) (f : file),
    (n =? "..")%string = false ->
    lookup n (managed (fs w)) = Some (File f) ->
    get_file_info (Os.child n) w = (Ok (info_of (n, f)), w).
Proof.
  intros w n f Hn Hl. unfold get_file_info, bind.
  rewrite (os_stat_child w n Hn Hl). reflexivity.
Qed.

Lemma collect_files_spec :
  forall (query : string) (l : list (string * node)) (files : list FileInfo)
         (w : World),
    (forall e, In e l -> lookup (fst e) (managed (fs w)) = Some (snd e)) ->
    (forall e, In e l -> (fst e =? "..")%string = false) ->
    collect_files query (map fst l) files w
    = (Ok (files ++ map info_of (filter (matches query) (regular_files l)), None),
       w).
Proof.
  intros query.
  induction l as [|[n nd] l IH]; intros files w Hl Hv.
  - simpl. unfold ret. now rewrite app_nil_r.
  - assert (Hn : (n =? "..")%string = false) by (apply (Hv (n, nd)); now left).
    assert (Hnd : lookup n (managed (fs w)) = Some nd)
      by (apply (Hl (n, nd)); now left).
    assert (Hl' : forall e, In e l -> lookup (fst e) (managed (fs w)) = Some (snd e))
      by (intros; apply Hl; now right).
    assert (Hv' : forall e, In e l -> (fst e =? "..")%string = false)
      by (intros; apply Hv; now right).
    cbn [map fst collect_files]. unfold bind at 1.
    rewrite (os_is_file_child w n Hn Hnd).
    destruct nd as [f|c|]; cbn [is_regular snd].
    + change (path_name (Os.child n)) with n.
      cbn [regular_files flat_map snd fst app filter].
      unfold matches at 1. cbn [fst].
      destruct (PyStr.truthy query
                && negb (PyStr.contains query (PyStr.lower n))).
      * cbn [negb]. apply IH; assumption.
      * cbn [negb map]. rewrite (get_file_info_child w n Hn Hnd).
        rewrite IH by assumption. now rewrite <- app_assoc.
    + cbn [regular_files flat_map snd app]. apply IH; assumption.
    + cbn [regular_files flat_map snd app]. apply IH; assumption.
Qed.

End ListingFacts.

(** *** The stable descending sort *)


Section SortFacts.
Variable A : Type.
Variable key : A -> string.






End SortFacts.





Section ListingResults.
Context {RT : PyRuntime}.


(** The listing when the enumeration stops with an error after [k]
    entries. *)
Lemma handle_get_files_interrupted :
  forall (request : Request) (w : World) (k : nat) (msg : string),
    wf_dir (managed (fs w)) = true ->
    enum_fault w = Some (k, msg) ->
    let query := PyStr.strip (PyStr.lower (multi_get "query" "" (form request))) in
    handle_get_files request w
    = (Ok (jsonify (JList (map json_of_info
             (map info_of (filter (matches query)
                                  (regular_files (firstn k (managed (fs w))))))))),
       set_log (log w ++ [("File listing error: " ++ msg)%string]) w).
Proof.
  intros request w k msg Hwf Hf query.
  destruct (wf_dir_parts _ Hwf) as [Hnd Hv].
  unfold handle_get_files. fold query.
  unfold bind at 1. unfold Os.iterdir. rewrite Hf.
  unfold bind at 1. rewrite firstn_map.
  rewrite (collect_files_spec query (firstn k (managed (fs w))) [] w).
  - reflexivity.
  - intros e He. apply wf_dir_lookup; [assumption|].
    rewrite <- (firstn_skipn k (managed (fs w))). apply in_or_app. now left.
  - intros e He. apply Hv.
    rewrite <- (firstn_skipn k (managed (fs w))). apply in_or_app. now left.
Qed.

End ListingResults.

(** *** Clean-up *)

Lemma remove_entry_absent :
  forall (n : string) (l : list (string * node)),
    ~ In n (map fst l) -> Os.remove_entry n l = l.
Proof.
  induction l as [|[k v] l IH]; intros H; [reflexivity|].
  simpl in *. destruct (String.eqb_spec k n) as [->|_].
  - exfalso. apply H. now left.
  - simpl. f_equal. apply IH. intros Hin. apply H. now right.
Qed.

Lemma remove_entry_middle :
  forall (n : string) (nd : node) (kept rest : list (string * node)),
    ~ In n (map fst kept) -> ~ In n (map fst rest) ->
    Os.remove_entry n (kept ++ (n, nd) :: rest) = kept ++ rest.
Proof.
  intros n nd kept rest Hk Hr. unfold Os.remove_entry.
  rewrite filter_app. simpl. rewrite String.eqb_refl. simpl.
  fold (Os.remove_entry n kept). fold (Os.remove_entry n rest).
  now rewrite !remove_entry_absent by assumption.
Qed.

Lemma NoDup_middle :
  forall (n : string) (nd : node) (kept rest : list (string * node)),
    NoDup (map fst (kept ++ (n, nd) :: rest)) ->
    ~ In n (map fst kept) /\ ~ In n (map fst rest)
    /\ NoDup (map fst (kept ++ rest)).
Proof.
  intros n nd kept rest H. rewrite map_app in H. simpl in H.
  pose proof (NoDup_remove_1 _ _ _ H) as H1.
  pose proof (NoDup_remove_2 _ _ _ H) as H2.
  rewrite map_app. repeat split; [| |assumption];
    intros Hin; apply H2; apply in_or_app; [now left|now right].
Qed.

Lemma set_fs_same :
  forall (w : World) (entries : list (string * node)),
    managed (fs w) = entries ->
    set_fs (Fs entries (above (fs w))) w = w.
Proof.
  intros [[m a] c d ef p pc me vc lg] entries H. simpl in *. now subst.
Qed.

Lemma detach_no_links :
  forall (n : string) (l : list (string * node)),
    no_inner_links l = true -> Os.detach n l = l.
Proof.
  induction l as [|[k nd] l IH]; intros H; [reflexivity|].
  simpl in H. apply andb_prop in H. destruct H as [Hk Hl].
  simpl. rewrite IH by exact Hl.
  destruct nd as [f|c|]; try reflexivity.
  destruct (f_via f); [reflexivity|discriminate].
Qed.

Lemma no_inner_links_middle :
  forall (e : string * node) (kept rest : list (string * node)),
    no_inner_links (kept ++ e :: rest) = true ->
    no_inner_links (kept ++ rest) = true.
Proof.
  intros e kept rest H. unfold no_inner_links in *.
  rewrite forallb_app in *. simpl in H.
  apply andb_prop in H. destruct H as [H1 H2].
  apply andb_prop in H2. destruct H2 as [_ H2]. now rewrite H1, H2.
Qed.

Lemma round_to_double_exact :
  forall z : Z, Z.abs z < 2 ^ 53 -> round_to_double z = z.
Proof.
  intros z H. unfold round_to_double. apply Z.ltb_lt in H. now rewrite H.
Qed.

(** On whole seconds of ordinary size line 267 is exact. *)
Lemma cutoff_of_exact :
  forall now days : Z,
    exact_seconds now = true ->
    exact_seconds (days * 24 * 60 * 60) = true ->
    cutoff_of now days = Ok (now - days * 24 * 60 * 60).
Proof.
  intros now days Hn Hd. unfold exact_seconds in *.
  apply Z.ltb_lt in Hn, Hd.
  assert (P : 2 ^ 53 = 2 * 2 ^ 52) by reflexivity.
  assert (Q : 2 ^ 52 < 2 ^ 1024) by (apply Z.pow_lt_mono_r; lia).
  unfold cutoff_of, float_of_int.
  rewrite (round_to_double_exact (days * 24 * 60 * 60)) by lia.
  replace (2 ^ 1024 <=? Z.abs (days * 24 * 60 * 60)) with false
    by (symmetry; apply Z.leb_gt; lia).
  unfold rbind. now rewrite round_to_double_exact by lia.
Qed.

Section CleanupFacts.
Context {RT : PyRuntime}.

Lemma cleanup_loop_spec :
  forall (cutoff : Z) (rest kept : list (string * node))
         (deleted errors : list string) (w : World),
    managed (fs w) = kept ++ rest ->
    NoDup (map fst (kept ++ rest)) ->
    no_inner_links (kept ++ rest) = true ->
    (forall e, In e rest -> (fst e =? "..")%string = false) ->
    cleanup_loop cutoff (map fst rest) deleted errors w
    = (Ok (deleted ++ purged_names cutoff rest, errors ++ refusals cutoff rest),
       set_fs (Fs (kept ++ survivors cutoff rest) (above (fs w))) w).
Proof.
  intros cutoff.
  induction rest as [|[n nd] rest IH]; intros kept deleted errors w Hm Hnd Hnl Hv.
  - simpl. unfold ret. rewrite !app_nil_r in *.
    now rewrite set_fs_same.
  - destruct (NoDup_middle _ _ _ _ Hnd) as (Hk & Hr & Hnd').
    pose proof (no_inner_links_middle _ _ _ Hnl) as Hnl'.
    assert (Hnl'' : no_inner_links ((kept ++ [(n, nd)]) ++ rest) = true)
      by (now rewrite <- app_assoc).
    assert (Hn : (n =? "..")%string = false) by (apply (Hv (n, nd)); now left).
    assert (Hv' : forall e, In e rest -> (fst e =? "..")%string = false)
      by (intros; apply Hv; now right).
    assert (Hl : lookup n (managed (fs w)) = Some nd).
    { rewrite Hm, lookup_app_skip by assumption.
      simpl. now rewrite String.eqb_refl. }
    assert (Hm' : managed (fs w) = (kept ++ [(n, nd)]) ++ rest)
      by (now rewrite <- app_assoc).
    assert (Hnd'' : NoDup (map fst ((kept ++ [(n, nd)]) ++ rest)))
      by (now rewrite <- app_assoc).
    assert (Skip : doomed cutoff (n, nd) = false ->
                   stuck cutoff (n, nd) = false ->
                   cleanup_loop cutoff (map fst rest) deleted errors w
                   = (Ok (deleted ++ purged_names cutoff ((n, nd) :: rest),
                          errors ++ refusals cutoff ((n, nd) :: rest)),
                      set_fs (Fs (kept ++ survivors cutoff ((n, nd) :: rest))
                                 (above (fs w))) w)).
    { intros Hd Hs. rewrite (IH (kept ++ [(n, nd)])) by assumption.
      unfold purged_names, survivors, refusals. simpl. rewrite Hd. simpl.
      rewrite <- app_assoc. simpl.
      unfold doomed, stuck in Hd, Hs. simpl in Hd, Hs.
      destruct nd as [f|c|]; try reflexivity.
      destruct (f_mtime f <? cutoff); [|reflexivity].
      destruct (f_unlink_error f); discriminate. }
    cbn [map fst cleanup_loop]. unfold bind at 1.
    rewrite (os_is_file_child w n Hn Hl).
    destruct nd as [f|c|]; cbn [is_regular snd].
    + unfold bind at 1. unfold bind at 1.
      rewrite (os_stat_child w n Hn Hl). unfold ret at 1.
      destruct (f_mtime f <? cutoff) eqn:Hold.
      * unfold bind at 1. unfold try_except, bind, Os.unlink.
        rewrite Hl.
        destruct (f_unlink_error f) as [msg|] eqn:Herr.
        -- unfold ret at 1.
           rewrite (IH (kept ++ [(n, File f)])) by assumption.
           unfold purged_names, survivors, refusals, doomed. simpl.
           rewrite Hold, Herr. simpl.
           now rewrite <- !app_assoc.
        -- unfold ret at 1.
           change (path_name (Os.child n)) with n.
           rewrite (IH kept).
           ++ unfold purged_names, survivors, refusals, doomed. simpl.
              rewrite Hold, Herr. simpl.
              now rewrite <- !app_assoc.
           ++ simpl. unfold Os.without.
              rewrite Hm, remove_entry_middle by assumption.
              now apply detach_no_links.
           ++ assumption.
           ++ assumption.
           ++ assumption.
      * apply Skip; unfold doomed, stuck; simpl; now rewrite Hold.
    + unfold bind at 1. unfold ret at 1. now apply Skip.
    + unfold bind at 1. unfold ret at 1. now apply Skip.
Qed.

(** The clean-up when the enumeration runs to its end. *)
Lemma api_cleanup_spec :
  forall (request : Request) (w : World) (days : Z),
    wf_dir (managed (fs w)) = true ->
    no_inner_links (managed (fs w)) = true ->
    enum_fault w = None ->
    days_of request w = (Ok days, w) ->
    exact_seconds (clock w) = true ->
    exact_seconds (days * 24 * 60 * 60) = true ->
    let cutoff := clock w - days * 24 * 60 * 60 in
    api_cleanup request w
    = (Ok (cleanup_report (purged_names cutoff (managed (fs w)))
                          (refusals cutoff (managed (fs w)))),
       set_fs (Fs (survivors cutoff (managed (fs w))) (above (fs w))) w).
Proof.
  intros request w days Hwf Hnl Hnf Hdays Hc Hd cutoff.
  destruct (wf_dir_parts _ Hwf) as [Hnd Hv].
  unfold api_cleanup. unfold bind at 1. rewrite Hdays.
  unfold bind at 1. unfold Os.now at 1.
  unfold bind at 1. unfold lift at 1. rewrite (cutoff_of_exact _ _ Hc Hd).
  unfold bind at 1. unfold Os.iterdir. rewrite Hnf.
  unfold bind at 1.
  rewrite (cleanup_loop_spec (clock w - days * 24 * 60 * 60)
             (managed (fs w)) [] [] [] w); try assumption; reflexivity.
Qed.

End CleanupFacts.

Lemma NoDup_same_name :
  forall (A : Type) (l : list (string * A)) (n : string) (a b : A),
    NoDup (map fst l) -> In (n, a) l -> In (n, b) l -> a = b.
Proof.
  intros A l n a b Hnd Ha Hb.
  pose proof (lookup_in_NoDup l n a Hnd Ha) as E1.
  pose proof (lookup_in_NoDup l n b Hnd Hb) as E2.
  congruence.
Qed.

Lemma purged_names_In :
  forall (cutoff : Z) (entries : list (string * node)) (n : string),
    In n (purged_names cutoff entries) ->
    exists nd, In (n, nd) entries /\ doomed cutoff (n, nd) = true.
Proof.
  intros cutoff entries n H. unfold purged_names in H.
  apply in_map_iff in H. destruct H as ([k nd] & E & H). simpl in E. subst k.
  apply filter_In in H. now exists nd.
Qed.

Lemma survivors_names :
  forall (cutoff : Z) (entries : list (string * node)) (n : string),
    In n (map fst (survivors cutoff entries)) ->
    exists nd, In (n, nd) entries /\ doomed cutoff (n, nd) = false.
Proof.
  intros cutoff entries n H.
  apply in_map_iff in H. destruct H as ([k nd] & E & H). simpl in E. subst k.
  apply filter_In in H. destruct H as [H1 H2].
  apply negb_true_iff in H2. now exists nd.
Qed.



Lemma kept_entries :
  forall (cutoff : Z) (entries : list (string * node)) (n : string) (nd : node),
    NoDup (map fst entries) ->
    In (n, nd) entries -> doomed cutoff (n, nd) = false ->
    In (n, nd) (survivors cutoff entries)
    /\ ~ In n (purged_names cutoff entries).
Proof.
  intros cutoff entries n nd Hnd Hin Hd. split.
  - apply filter_In. split; [assumption|]. now rewrite Hd.
  - intros H. apply purged_names_In in H. destruct H as (nd' & Hin' & Hd').
    rewrite (NoDup_same_name _ _ _ _ Hnd Hin Hin') in Hd. congruence.
Qed.

Lemma removed_entries :
  forall (cutoff : Z) (entries : list (string * node)) (n : string) (nd : node),
    NoDup (map fst entries) ->
    In (n, nd) entries -> doomed cutoff (n, nd) = true ->
    In n (purged_names cutoff entries)
    /\ lookup n (survivors cutoff entries) = None.
Proof.
  intros cutoff entries n nd Hnd Hin Hd. split.
  - unfold purged_names. apply in_map_iff. exists (n, nd).
    split; [reflexivity|]. now apply filter_In.
  - apply lookup_not_in. intros H. apply survivors_names in H.
    destruct H as (nd' & Hin' & Hd').
    rewrite (NoDup_same_name _ _ _ _ Hnd Hin Hin') in Hd. congruence.
Qed.

Lemma flask_run_api_cleanup :
  forall (RT : PyRuntime) (request : Request) (w : World) (days : Z),
    wf_dir (managed (fs w)) = true ->
    no_inner_links (managed (fs w)) = true ->
    enum_fault w = None ->
    days_of request w = (Ok days, w) ->
    exact_seconds (clock w) = true ->
    exact_seconds (days * 24 * 60 * 60) = true ->
    let cutoff := clock w - days * 24 * 60 * 60 in
    let deleted := purged_names cutoff (managed (fs w)) in
    let errors := refusals cutoff (managed (fs w)) in
    flask_run (api_cleanup request) w
    = (JsonResp 200
         (JDict [ ("deleted", JList (map JStr deleted));
                  ("errors", JList (map JStr errors));
                  ("message",
                   JStr ("Deleted " ++ PyStr.str_of_nat (List.length deleted)
                         ++ " file(s)")) ]),
       set_fs (Fs (survivors cutoff (managed (fs w))) (above (fs w))) w).
Proof.
  intros RT request w days Hwf Hnl Hnf Hdays Hc Hd cutoff deleted errors.
  unfold flask_run.
  now rewrite (api_cleanup_spec request Hwf Hnl Hnf Hdays Hc Hd).
Qed.


(** C9.  Under the conditions of C4, the comparison with the cutoff is
    strict: a file whose modified time equals [now - days * 86400] is still
    in the managed directory after the purge and is not reported as
    deleted, and every name that is reported as deleted belongs to a file
    whose modified time is strictly below the cutoff. *)
Theorem C9_purge_cutoff_is_strict :
  forall (RT : PyRuntime) (request : Request) (w : World) (days : Z)
         (n : string) (f : file),
    wf_dir (managed (fs w)) = true ->
    no_inner_links (managed (fs w)) = true ->
    enum_fault w = None ->
    days_of request w = (Ok days, w) ->
    exact_seconds (clock w) = true ->
    exact_seconds (days * 24 * 60 * 60) = true ->
    In (n, File f) (managed (fs w)) ->
    f_mtime f = clock w - days * 24 * 60 * 60 ->
    exists (deleted errors : list string) (w' : World),
      flask_run (api_cleanup request) w
      = (JsonResp 200
           (JDict [ ("deleted", JList (map JStr deleted));
                    ("errors", JList (map JStr errors));
                    ("message",
                     JStr ("Deleted " ++ PyStr.str_of_nat (List.length deleted)
                           ++ " file(s)")) ]),
         w')
      /\ In (n, File f) (managed (fs w'))
      /\ ~ In n deleted
      /\ (forall m, In m deleted ->
                    exists g, In (m, File g) (managed (fs w))
                              /\ f_mtime g < clock w - days * 24 * 60 * 60).
Proof.
  intros RT request w days n f Hwf Hnl Hnf Hdays Hc Hd Hin Hedge.
  destruct (wf_dir_parts _ Hwf) as [Hnd _].
  set (cutoff := clock w - days * 24 * 60 * 60) in *.
  exists (purged_names cutoff (managed (fs w))),
         (refusals cutoff (managed (fs w))),
         (set_fs (Fs (survivors cutoff (managed (fs w))) (above (fs w))) w).
  split; [now apply flask_run_api_cleanup|].
  cbn [fs set_fs managed].
  assert (Hdm : doomed cutoff (n, File f) = false).
  { unfold doomed. cbn [snd]. rewrite Hedge, Z.ltb_irrefl. reflexivity. }
  destruct (kept_entries cutoff _ n (File f) Hnd Hin Hdm) as [H1 H2].
  repeat split; try assumption.
  intros m Hm. apply purged_names_In in Hm. destruct Hm as (nd & Hin' & Hd').
  unfold doomed in Hd'. cbn [snd] in Hd'. destruct nd as [g|c|]; try discriminate.
  apply andb_prop in Hd'. destruct Hd' as [Hlt _].
  exists g. split; [assumption|now apply Z.ltb_lt].
Qed.


(** In the sample attic the file on the cutoff stays. *)
Lemma C9_purge_cutoff_is_strict_witness :
  exists (deleted errors : list string) (w' : World),
    flask_run (api_cleanup (Sample.post [("days", "10")])) Sample.attic
    = (JsonResp 200
         (JDict [ ("deleted", JList (map JStr deleted));
                  ("errors", JList (map JStr errors));
                  ("message",
                   JStr ("Deleted " ++ PyStr.str_of_nat (List.length deleted)
                         ++ " file(s)")) ]),
       w')
    /\ In ("edge.txt", Sample.plain_file "dd" 5000) (managed (fs w'))
    /\ ~ In "edge.txt" deleted.
Proof.
  destruct (@C9_purge_cutoff_is_strict Sample.utc_runtime
              (Sample.post [("days", "10")]) Sample.attic 10
              "edge.txt" (File_ (Sample.bytes_of "dd") 5000 5000 None [])
              eq_refl eq_refl eq_refl eq_refl eq_refl eq_refl)
    as (deleted & errors & w' & H1 & H2 & H3 & _).
  - simpl. tauto.
  - reflexivity.
  - exists deleted, errors, w'. repeat split; assumption.
Defined.

(** *** The listing claims *)

Example local_text_in_berlin :
  @isoformat Berlin.runtime 1698539400 = "2023-10-29T02:30:00"
  /\ @isoformat Berlin.runtime 1698541800 = "2023-10-29T02:10:00".
Proof. split; reflexivity. Qed.




(** C8.  When the enumeration of the managed directory stops with an
    exception after [k] entries, the listing still answers with status 200:
    its body holds the records of the regular files among those [k]
    entries that pass the filter, in enumeration order (none when
    [k = 0]), and the error goes to the log only. *)
Theorem C8_listing_survives_enumeration_error :
  forall (RT : PyRuntime) (request : Request) (w : World) (k : nat) (msg : string),
    wf_dir (managed (fs w)) = true ->
    enum_fault w = Some (k, msg) ->
    let query := PyStr.strip (PyStr.lower (multi_get "query" "" (form request))) in
    let collected :=
      map info_of (filter (matches query)
                          (regular_files (firstn k (managed (fs w))))) in
    flask_run (handle_get_files request) w
    = (jsonify (JList (map json_of_info collected)),
       set_log (log w ++ [("File listing error: " ++ msg)%string]) w)
    /\ error_kind (fst (flask_run (handle_get_files request) w)) = None.
Proof.
  intros RT request w k msg Hwf Hf query collected.
  assert (E : flask_run (handle_get_files request) w
              = (jsonify (JList (map json_of_info collected)),
                 set_log (log w ++ [("File listing error: " ++ msg)%string]) w)).
  { unfold flask_run.
    now rewrite (handle_get_files_interrupted request w Hwf Hf). }
  split; [exact E|]. rewrite E. reflexivity.
Qed.

(** The sample home directory with the enumeration cut after one entry,
    and before the first. *)
Lemma C8_listing_survives_enumeration_error_witness :
  listed_names (fst (flask_run (handle_get_files (Sample.post []))
                               (Sample.interrupted 1 Sample.home)))
  = ["foo.txt"]
  /\ fst (flask_run (handle_get_files (Sample.post []))
                    (Sample.interrupted 0 Sample.home))
     = jsonify (JList []).
Proof.
  split.
  - rewrite (proj1 (@C8_listing_survives_enumeration_error Sample.utc_runtime
                      (Sample.post []) (Sample.interrupted 1 Sample.home)
                      1 "Input/output error" eq_refl eq_refl)).
    reflexivity.
  - rewrite (proj1 (@C8_listing_survives_enumeration_error Sample.utc_runtime
                      (Sample.post []) (Sample.interrupted 0 Sample.home)
                      0 "Input/output error" eq_refl eq_refl)).
    reflexivity.
Defined.

(* ------------------------------------------------------------------ *)
(** ** Further properties of the program *)

(** *** The allow-list *)

Lemma from_last_dot_without_dot :
  forall s : string, has_dot s = false -> from_last_dot s = None.
Proof.
  induction s as [|c s IH]; intros H; [reflexivity|].
  simpl in *. apply orb_false_iff in H. destruct H as [Hc Hs].
  now rewrite IH, Hc.
Qed.

Lemma from_last_dot_app :
  forall stem ext : string,
    has_dot ext = false ->
    from_last_dot (stem ++ "." ++ ext) = Some ("." ++ ext)%string.
Proof.
  intros stem ext H. induction stem as [|c stem IH].
  - simpl. now rewrite from_last_dot_without_dot.
  - simpl. simpl in IH. now rewrite IH.
Qed.

Lemma has_dot_app :
  forall stem ext : string, has_dot (stem ++ "." ++ ext) = true.
Proof.
  induction stem as [|c stem IH]; intros ext; [reflexivity|].
  specialize (IH ext). simpl in *. rewrite IH. apply orb_true_r.
Qed.

Lemma lower_char_idempotent :
  forall c : ascii, PyStr.lower_char (PyStr.lower_char c) = PyStr.lower_char c.
Proof. intros [[] [] [] [] [] [] [] []]; reflexivity. Qed.

Lemma lower_idempotent :
  forall s : string, PyStr.lower (PyStr.lower s) = PyStr.lower s.
Proof.
  induction s as [|c s IH]; [reflexivity|].
  simpl. now rewrite IH, lower_char_idempotent.
Qed.

(** X1.  Only the text after the last dot decides, in lower case: for an
    extension without a dot, [stem.ext] is allowed exactly when the
    lower-cased extension is an entry of the allow-list, whatever the stem
    (so "clip.exe.mp4" passes and "clip.mp4.exe" does not). *)
Theorem X1_allowed_file_last_extension :
  forall (env : option string) (stem ext : string),
    has_dot ext = false ->
    allowed_file env (stem ++ "." ++ ext)
    = existsb (String.eqb (PyStr.lower ext)) (allowed_extensions env).
Proof.
  intros env stem ext H. unfold allowed_file, rsplit_dot_last.
  rewrite has_dot_app, from_last_dot_app by assumption. reflexivity.
Qed.

Lemma X1_allowed_file_last_extension_witness :
  allowed_file None ("clip.exe" ++ "." ++ "MP4") = true
  /\ allowed_file None ("clip.mp4" ++ "." ++ "exe") = false.
Proof.
  split.
  - rewrite (X1_allowed_file_last_extension None "clip.exe" "MP4" eq_refl).
    reflexivity.
  - rewrite (X1_allowed_file_last_extension None "clip.mp4" "exe" eq_refl).
    reflexivity.
Defined.

(** X2.  The extension is lower-cased before it is looked up and the
    entries of the allow-list are not: when no entry of ALLOWED_EXTENSIONS
    is in lower case, no file name is allowed. *)
Theorem X2_allowed_file_needs_lower_case_entries :
  forall (env : option string) (filename : string),
    (forall entry, In entry (allowed_extensions env) ->
                   PyStr.lower entry <> entry) ->
    allowed_file env filename = false.
Proof.
  intros env filename H. unfold allowed_file.
  destruct (existsb _ (allowed_extensions env)) eqn:E;
    [|apply andb_false_r].
  apply existsb_exists in E. destruct E as (entry & Hin & Heq).
  apply String.eqb_eq in Heq. exfalso. apply (H entry Hin).
  rewrite <- Heq. apply lower_idempotent.
Qed.

Lemma X2_allowed_file_needs_lower_case_entries_witness :
  allowed_file (Some "MP4,Mp3") "clip.mp4" = false.
Proof.
  apply X2_allowed_file_needs_lower_case_entries.
  intros entry [<-|[<-|[]]]; discriminate.
Defined.

(** *** The dispatcher *)

(** X3.  A POST whose [action] field is missing or is not, letter for
    letter, one of the five known actions is answered with 400
    "Invalid action"; no component is called and the world is as
    before. *)
Theorem X3_unknown_action_is_rejected :
  forall (RT : PyRuntime) (CO : Collaborators) (request : Request) (w : World),
    (forall a, lookup "action" (form request) = Some a -> ~ In a known_actions) ->
    handle_post_request request w = (Ok (json_error "Invalid action" 400), w)
    /\ index "POST" request w = (Ok (Answer (json_error "Invalid action" 400)), w)
    /\ error_kind (fst (flask_run (handle_post_request request) w))
       = Some InvalidAction.
Proof.
  intros RT CO request w H.
  assert (E : handle_post_request request w
              = (Ok (json_error "Invalid action" 400), w)).
  { unfold handle_post_request.
    destruct (lookup "action" (form request)) as [a|]; [|reflexivity].
    specialize (H a eq_refl). unfold known_actions in H. simpl in H.
    repeat match goal with
           | |- context [(a =? ?k)%string] =>
               destruct (String.eqb_spec a k) as [->|_]; [exfalso; tauto|]
           end.
    reflexivity. }
  split; [exact E|]. split.
  - unfold index, bind. simpl. now rewrite E.
  - unfold flask_run. now rewrite E.
Qed.

Lemma X3_unknown_action_is_rejected_witness :
  @handle_post_request Sample.utc_runtime Fixture.quiet
    (Sample.post [("action", "Get_Files")]) Sample.home
  = (Ok (json_error "Invalid action" 400), Sample.home)
  /\ @handle_post_request Sample.utc_runtime Fixture.quiet
       (Sample.post [("query", "cats")]) Sample.home
     = (Ok (json_error "Invalid action" 400), Sample.home).
Proof.
  split.
  - apply (X3_unknown_action_is_rejected Sample.utc_runtime Fixture.quiet
             (Sample.post [("action", "Get_Files")]) Sample.home).
    intros a E. inversion E; subst. simpl.
    intros [H|[H|[H|[H|[H|[]]]]]]; discriminate.
  - apply (X3_unknown_action_is_rejected Sample.utc_runtime Fixture.quiet
             (Sample.post [("query", "cats")]) Sample.home).
    intros a E. discriminate.
Defined.

(** *** The download gateway *)

Section DownloadFacts.
Context {RT : PyRuntime} {CO : Collaborators}.

Lemma download_youtube_video_returns :
  forall (url download_type quality : string) (w : World),
    exists outcome w',
      download_youtube_video url download_type quality w = (Ok outcome, w').
Proof.
  intros url download_type quality w.
  unfold download_youtube_video, try_except.
  match goal with |- context [match ?m with _ => _ end] =>
    destruct m as [[r|e] w'] end.
  - eauto.
  - unfold bind, Os.log_error, ret. eauto.
Qed.

Lemma download_youtube_video_engine_error :
  forall (url download_type quality : string) (w w1 : World) (e : exn),
    extract_info (ydl_opts (fs w) download_type quality) url w = (Raise e, w1) ->
    download_youtube_video url download_type quality w
    = (Ok (error_outcome e),
       set_log (log w1 ++ [("YouTube download error: " ++ exn_text e)%string]) w1).
Proof.
  intros url download_type quality w w1 e H.
  unfold download_youtube_video, try_except, bind. rewrite H. reflexivity.
Qed.

End DownloadFacts.

(** X4.  The download handler, that is the function beneath the
    rate-limit decorator: a blank URL is answered with 400
    "No URL provided" and the engine is not called (the world is as
    before); for any other URL the answer has
    status 200 whatever the engine does, and when the engine raises the
    body is [{"status": "error", "message": str(e)}] and the error is
    logged. *)
Theorem X4_download_handler_outcomes :
  forall (CO : Collaborators) (request : Request) (w : World),
    let url := PyStr.strip (multi_get "url" "" (form request)) in
    let download_type := multi_get "type" "video" (form request) in
    (url = "" ->
     handle_youtube_download_body request w
     = (Ok (json_error "No URL provided" 400), w))
    /\ (url <> "" ->
        exists outcome w',
          handle_youtube_download_body request w = (Ok (jsonify outcome), w'))
    /\ (url <> "" ->
        forall (e : exn) (w1 : World),
          extract_info (ydl_opts (fs w) download_type "best") url w = (Raise e, w1) ->
          handle_youtube_download_body request w
          = (Ok (jsonify (error_outcome e)),
             set_log (log w1 ++ [("YouTube download error: " ++ exn_text e)%string])
                     w1)).
Proof.
  intros CO request w url download_type.
  unfold handle_youtube_download_body. fold url. fold download_type.
  unfold PyStr.truthy. rewrite negb_involutive.
  split; [|split].
  - intros ->. reflexivity.
  - intros Hne. apply String.eqb_neq in Hne. rewrite Hne.
    destruct (download_youtube_video_returns url download_type "best" w)
      as (outcome & w' & E).
    exists outcome, w'. unfold bind. now rewrite E.
  - intros Hne e w1 He. apply String.eqb_neq in Hne. rewrite Hne.
    unfold bind. now rewrite (download_youtube_video_engine_error _ _ _ _ He).
Qed.

Lemma X4_download_handler_outcomes_witness :
  @handle_youtube_download_body Fixture.broken
    (Sample.post [("url", "  ")]) Sample.home
  = (Ok (json_error "No URL provided" 400), Sample.home)
  /\ (exists outcome w',
        @handle_youtube_download_body Fixture.quiet
          (Sample.post [("url", " http://v ")]) Sample.home
        = (Ok (jsonify outcome), w'))
  /\ fst (@handle_youtube_download_body Fixture.broken
            (Sample.post [("url", "http://v"); ("type", "audio")]) Sample.home)
     = Ok (jsonify (JDict [ ("status", JStr "error");
                            ("message", JStr "Unsupported URL") ])).
Proof.
  split; [|split].
  - apply (X4_download_handler_outcomes Fixture.broken
             (Sample.post [("url", "  ")]) Sample.home).
    reflexivity.
  - apply (X4_download_handler_outcomes Fixture.quiet
             (Sample.post [("url", " http://v ")]) Sample.home).
    discriminate.
  - rewrite (proj2 (proj2
               (X4_download_handler_outcomes Fixture.broken
                  (Sample.post [("url", "http://v"); ("type", "audio")])
                  Sample.home))
               ltac:(discriminate)
               (Exn OtherError "Unsupported URL") Sample.home eq_refl).
    reflexivity.
Defined.

(** *** The stable ascending sort and the most recent entry *)

Section SortAscFacts.
Variable A : Type.
Variable key : A -> Z.

Lemma insert_asc_perm :
  forall (x : A) (l : list A), Permutation (insert_asc key x l) (x :: l).
Proof.
  induction l as [|y l IH]; simpl; [reflexivity|].
  destruct (key y <? key x); [|reflexivity].
  rewrite IH. apply perm_swap.
Qed.

Lemma sort_asc_perm : forall l : list A, Permutation (sort_asc key l) l.
Proof.
  induction l as [|x l IH]; simpl; [reflexivity|].
  rewrite insert_asc_perm. now constructor.
Qed.

Lemma insert_asc_sorted :
  forall (x : A) (l : list A),
    Sorted (fun a b => key a <= key b) l ->
    Sorted (fun a b => key a <= key b) (insert_asc key x l).
Proof.
  induction l as [|y l IH]; intros Hs; simpl.
  - repeat constructor.
  - inversion Hs as [|? ? Hs' Hhd]; subst.
    destruct (key y <? key x) eqn:E.
    + apply Z.ltb_lt in E. constructor; [now apply IH|].
      destruct l as [|z l]; simpl.
      * constructor. lia.
      * inversion Hhd; subst.
        destruct (key z <? key x); constructor; lia.
    + apply Z.ltb_ge in E. constructor; [assumption|]. now constructor.
Qed.

Lemma sort_asc_sorted :
  forall l : list A, StronglySorted (fun a b => key a <= key b) (sort_asc key l).
Proof.
  intros l. apply Sorted_StronglySorted.
  - intros a b c Hab Hbc. lia.
  - induction l as [|x l IH]; simpl; [constructor|].
    now apply insert_asc_sorted.
Qed.

Lemma sorted_last_is_greatest :
  forall (l : list A) (a : A),
    StronglySorted (fun a b => key a <= key b) (l ++ [a]) ->
    forall y, In y (l ++ [a]) -> key y <= key a.
Proof.
  induction l as [|x l IH]; intros a Hs y Hy.
  - destruct Hy as [<-|[]]. lia.
  - simpl in *. inversion Hs as [|? ? Hs' Hall]; subst.
    destruct Hy as [<-|Hy].
    + rewrite Forall_forall in Hall. apply Hall. apply in_or_app. right. now left.
    + now apply IH.
Qed.

End SortAscFacts.

Section FallbackFacts.
Context {CO : Collaborators}.

Lemma getmtime_child :
  forall (w : World) (n : string) (nd : node),
    (n =? "..")%string = false ->
    lookup n (managed (fs w)) = Some nd ->
    getmtime (Os.child n) w = (entry_mtime (n, nd), w).
Proof.
  intros w n nd Hn Hl. unfold getmtime, entry_mtime.
  rewrite resolve_child, Hl by assumption. now destruct nd.
Qed.

Lemma mtime_keys_spec :
  forall (time : string * node -> Z) (l : list (string * node)) (w : World),
    (forall e, In e l -> lookup (fst e) (managed (fs w)) = Some (snd e)) ->
    (forall e, In e l -> (fst e =? "..")%string = false) ->
    (forall e, In e l -> entry_mtime e = Ok (time e)) ->
    mtime_keys (map fst l) w = (Ok (map (fun e => (time e, fst e)) l), w).
Proof.
  intros time. induction l as [|[n nd] l IH]; intros w Hl Hv Ht; [reflexivity|].
  cbn [map fst mtime_keys]. unfold bind at 1.
  rewrite (getmtime_child w n (nd := nd));
    [|apply (Hv (n, nd)); now left|apply (Hl (n, nd)); now left].
  rewrite (Ht (n, nd)) by now left.
  unfold bind at 1. rewrite IH; [reflexivity| | |]; intros; auto with datatypes.
Qed.

Lemma most_recent_file_spec :
  forall w : World,
    wf_dir (managed (fs w)) = true ->
    (forall e, In e (managed (fs w)) -> exists t, entry_mtime e = Ok t) ->
    exists filename : json,
      most_recent_file w = (Ok filename, w)
      /\ (managed (fs w) = [] -> filename = JNull)
      /\ (managed (fs w) <> [] ->
          exists e t,
            In e (managed (fs w)) /\ entry_mtime e = Ok t
            /\ filename = JStr (fst e)
            /\ forall e' t', In e' (managed (fs w)) ->
                             entry_mtime e' = Ok t' -> t' <= t).
Proof.
  intros w Hwf Hall.
  destruct (wf_dir_parts _ Hwf) as [Hnd Hv].
  set (time := fun e : string * node =>
                 match entry_mtime e with Ok t => t | Raise _ => 0 end).
  assert (Ht : forall e, In e (managed (fs w)) -> entry_mtime e = Ok (time e)).
  { intros e He. destruct (Hall e He) as [t E]. unfold time. now rewrite E. }
  set (keyed := map (fun e => (time e, fst e)) (managed (fs w))).
  assert (E : most_recent_file w
              = (Ok (match rev (map snd (sort_asc fst keyed)) with
                     | name :: _ => JStr name
                     | [] => JNull
                     end), w)).
  { unfold most_recent_file, bind, glob_star.
    rewrite (mtime_keys_spec time (managed (fs w)) w); try assumption.
    - reflexivity.
    - intros e He. now apply wf_dir_lookup. }
  pose proof (sort_asc_perm fst keyed) as Hperm.
  pose proof (sort_asc_sorted fst keyed) as Hsorted.
  destruct (sort_asc fst keyed) as [|[t n] l] using rev_ind.
  - exists JNull. split; [exact E|]. split; [reflexivity|].
    intros Hne. exfalso. apply Permutation_nil in Hperm.
    unfold keyed in Hperm. apply map_eq_nil in Hperm. contradiction.
  - rewrite map_app, rev_app_distr in E. simpl in E.
    exists (JStr n). split; [exact E|]. split.
    + intros Hnil. exfalso. unfold keyed in Hperm. rewrite Hnil in Hperm.
      simpl in Hperm. symmetry in Hperm. apply Permutation_nil in Hperm.
      destruct l; discriminate.
    + intros _.
      assert (Hin : In (t, n) keyed).
      { eapply Permutation_in; [exact Hperm|]. apply in_or_app. right. now left. }
      unfold keyed in Hin. apply in_map_iff in Hin.
      destruct Hin as (e & He & Hine). inversion He; subst.
      exists e, (time e). repeat split; auto.
      intros e' t' Hine' Et'.
      assert (Hk : In (time e', fst e') (l ++ [(time e, fst e)])).
      { eapply Permutation_in; [apply Permutation_sym; exact Hperm|].
        unfold keyed. apply in_map_iff. now exists e'. }
      pose proof (@sorted_last_is_greatest _ fst l _ Hsorted _ Hk) as Hle.
      simpl in Hle. rewrite (Ht e' Hine') in Et'. inversion Et'; subst. exact Hle.
Qed.

End FallbackFacts.

(** X5.  The file name a successful download reports.  When the engine's
    info dict has the key [_filename], its value is reported as it is.
    Otherwise the name is taken from the managed directory as the engine
    left it: [None] when the directory is empty, and else the name of an
    entry whose [getmtime] is greatest among all entries, regular file or
    not.  In both cases the status is "success" and title, duration and
    filesize come from the dict, with the defaults "Unknown", 0 and 0. *)
Theorem X5_download_reports_filename :
  forall (CO : Collaborators) (url download_type quality : string)
         (w w1 : World) (fields : list (string * json)),
    extract_info (ydl_opts (fs w) download_type quality) url w
    = (Ok (JDict fields), w1) ->
    (forall v, lookup "_filename" fields = Some v ->
               download_youtube_video url download_type quality w
               = (Ok (success_outcome v fields), w1))
    /\ (lookup "_filename" fields = None ->
        wf_dir (managed (fs w1)) = true ->
        (forall e, In e (managed (fs w1)) -> exists t, entry_mtime e = Ok t) ->
        exists filename : json,
          download_youtube_video url download_type quality w
          = (Ok (success_outcome filename fields), w1)
          /\ (managed (fs w1) = [] -> filename = JNull)
          /\ (managed (fs w1) <> [] ->
              exists e t,
                In e (managed (fs w1)) /\ entry_mtime e = Ok t
                /\ filename = JStr (fst e)
                /\ forall e' t', In e' (managed (fs w1)) ->
                                 entry_mtime e' = Ok t' -> t' <= t)).
Proof.
  intros CO url download_type quality w w1 fields Hengine. split.
  - intros v Hv. unfold download_youtube_video, try_except.
    unfold bind at 1. rewrite Hengine.
    unfold bind, lift, py_in, py_getitem, PyVal.get, success_outcome, field_or, ret.
    rewrite Hv.
    destruct (lookup "title" fields), (lookup "duration" fields),
      (lookup "filesize" fields); reflexivity.
  - intros Hnone Hwf Hall.
    destruct (most_recent_file_spec w1 Hwf Hall) as (filename & E & H1 & H2).
    exists filename. split; [|split; assumption].
    unfold download_youtube_video, try_except.
    unfold bind at 1. rewrite Hengine.
    unfold bind at 1. unfold lift at 1. unfold py_in. rewrite Hnone.
    unfold bind at 1. rewrite E.
    unfold bind, lift, PyVal.get, success_outcome, field_or, ret.
    destruct (lookup "title" fields), (lookup "duration" fields),
      (lookup "filesize" fields); reflexivity.
Qed.

Lemma X5_download_reports_filename_witness :
  fst (@download_youtube_video Fixture.quiet "http://v" "video" "best" Sample.home)
  = Ok (JDict [ ("status", JStr "success"); ("filename", JStr "Clip.mp4");
                ("title", JStr "Clip"); ("duration", JInt 0);
                ("filesize", JInt 0) ]).
Proof.
  destruct (proj2 (@X5_download_reports_filename Fixture.quiet
                     "http://v" "video" "best" Sample.home _
                     [("title", JStr "Clip")] eq_refl)
                  eq_refl eq_refl)
    as (filename & E & _ & _).
  - intros e He. simpl in He.
    repeat (destruct He as [<-|He]; [eexists; reflexivity|]). contradiction.
  - reflexivity.
Defined.

(** *** What fetch and the listing leave alone *)



Section ListingFrame.
Context {RT : PyRuntime}.



End ListingFrame.



(** *** Filtering the listing *)




Section SortFilter.
Variable A : Type.
Variable key : A -> string.
Variable keep : A -> bool.






End SortFilter.





(** *** The caches *)

Lemma args_eqb_refl : forall a : list (string * string), args_eqb a a = true.
Proof.
  induction a as [|[k v] a IH]; [reflexivity|].
  simpl. now rewrite !String.eqb_refl, IH.
Qed.

Lemma key_eqb_refl : forall k : string * Z, key_eqb k k = true.
Proof.
  intros [q l]. unfold key_eqb. simpl. now rewrite String.eqb_refl, Z.eqb_refl.
Qed.

Lemma cache_get_fresh_head :
  forall (K V : Type) (eqb : K -> K -> bool) (now expires : Z) (k : K) (v : V)
         (c : list (K * (Z * V))),
    eqb k k = true -> now < expires ->
    cache_get eqb now k ((k, (expires, v)) :: c) = Some v.
Proof.
  intros K V eqb now expires k v c Hk Hlt. unfold cache_get. simpl.
  rewrite Hk. apply Z.ltb_lt in Hlt. now rewrite Hlt.
Qed.

(** X9.  The listing of /api/files is served from the cache.  Once a
    request that the rate limiter let through has been answered by running
    the view, every later request that the limiter lets through, that has
    the same query arguments up to their order, and that is made less than
    60 time units later gets the very same response without the directory
    being read, whatever the managed directory holds by then (a purge in
    between does not show). *)
Theorem X9_api_files_serves_cached_listing :
  forall (RT : PyRuntime) (request : Request) (w w1 : World) (r : Response),
    cache_get args_eqb (clock w) (sorted_args (args request)) (view_cache w)
    = None ->
    api_get_files request w = (Ok r, w1) ->
    forall (request2 : Request) (w2 : World),
      sorted_args (args request2) = sorted_args (args request) ->
      view_cache w2 = view_cache w1 ->
      clock w2 < clock w1 + 60 ->
      api_get_files request2 w2 = (Ok r, w2).
Proof.
  intros RT request w w1 r Hmiss Hrun request2 w2 Hargs Hcache Hclock.
  unfold api_get_files, cached in Hrun. rewrite Hmiss in Hrun.
  destruct (handle_get_files request w) as [[r0|e] w'] eqn:E; [|discriminate].
  inversion Hrun; subst r0 w1. clear Hrun.
  unfold api_get_files, cached. rewrite Hargs, Hcache. cbn [view_cache set_view_cache].
  rewrite cache_get_fresh_head; [reflexivity|apply args_eqb_refl|exact Hclock].
Qed.

(** The sample attic: the listing is taken, ten-day-old files are purged,
    and 59 time units later the listing still shows them. *)
Lemma X9_api_files_serves_cached_listing_witness :
  let request := Sample.get [("q", "old")] in
  let listed := api_get_files request Sample.attic in
  let purged := flask_run (api_cleanup (Sample.post [("days", "10")])) (snd listed) in
  map fst (managed (fs (snd purged)))
  = ["locked.bin"; "edge.txt"; "fresh.txt"; "sub"; "pipe"]
  /\ listed_names (fst (flask_run (api_get_files request)
                                  (Fixture.later 59 (snd purged))))
     = ["fresh.txt"; "edge.txt"; "old2.mp3"; "locked.bin"; "old1.mp4"].
Proof.
  intros request listed purged. split; [reflexivity|].
  unfold flask_run.
  rewrite (@X9_api_files_serves_cached_listing Sample.utc_runtime
             request Sample.attic (snd listed)
             (fst (flask_run (api_get_files request) Sample.attic))
             eq_refl eq_refl request (Fixture.later 59 (snd purged))
             eq_refl eq_refl).
  - reflexivity.
  - simpl. lia.
Defined.

(** X10.  A search is memoized by (query, limit): once a call has run the
    function, every call with the same arguments made less than 300 time
    units later returns the same list and leaves the world untouched, so
    the provider is not asked again.  This holds for the empty list of a
    failed search too, even if the provider would answer by then. *)
Theorem X10_search_is_memoized :
  forall (query : string) (limit : Z) (w w1 : World)
         (results : list json),
    cache_get key_eqb (clock w) (query, limit) (memo w) = None ->
    search_youtube query limit w = (Ok results, w1) ->
    forall w2 : World,
      memo w2 = memo w1 ->
      clock w2 < clock w1 + 300 ->
      search_youtube query limit w2 = (Ok results, w2).
Proof.
  intros query limit w w1 results Hmiss Hrun w2 Hmemo Hclock.
  unfold search_youtube, memoize in Hrun. rewrite Hmiss in Hrun.
  destruct (search_youtube_body query limit w) as [[r0|e] w'] eqn:E;
    [|discriminate].
  inversion Hrun; subst r0 w1. clear Hrun.
  unfold search_youtube, memoize. rewrite Hmemo. cbn [memo set_memo].
  rewrite cache_get_fresh_head; [reflexivity|apply key_eqb_refl|exact Hclock].
Qed.

(** A search fails in the sample home; 100 time units later the provider
    answers with two items, and the search still returns the empty list
    without a further call. *)
Lemma X10_search_is_memoized_witness :
  let failed := search_youtube "cats" 10 Sample.home in
  let recovered := Fixture.with_provider Fixture.two_items
                     (Fixture.later 100 (snd failed)) in
  search_youtube "cats" 10 recovered = (Ok [], recovered)
  /\ provider_calls recovered = [("cats", 10)].
Proof.
  intros failed recovered. split; [|reflexivity].
  apply (@X10_search_is_memoized "cats" 10
           Sample.home (snd failed) [] eq_refl eq_refl recovered eq_refl).
  simpl. lia.
Defined.

(** *** Formatting the search results *)

Lemma format_results_all :
  forall (items rs : list json),
    Forall2 (fun item r => format_item item = Ok r) items rs ->
    forall acc, format_results items acc = Ok (acc ++ rs).
Proof.
  intros items rs H. induction H as [|item r items rs Hi _ IH]; intros acc.
  - simpl. now rewrite app_nil_r.
  - simpl. rewrite Hi. simpl. rewrite IH. now rewrite <- app_assoc.
Qed.

Lemma format_results_one_failure :
  forall (items : list json) (item : json) (e : exn),
    In item items -> format_item item = Raise e ->
    forall acc, exists e', format_results items acc = Raise e'.
Proof.
  induction items as [|x items IH]; intros item e Hin He acc; [contradiction|].
  simpl. destruct (format_item x) as [r|e0] eqn:Ex.
  - simpl. destruct Hin as [->|Hin]; [congruence|].
    now apply (IH item e).
  - simpl. now exists e0.
Qed.

Lemma format_item_empty_thumbnails :
  forall fields : list (string * json),
    lookup "thumbnails" fields = Some (JList []) ->
    format_item (JDict fields) = Raise (Exn IndexError "list index out of range").
Proof.
  intros fields H. unfold format_item, rbind, PyVal.get.
  rewrite H.
  destruct (lookup "title" fields), (lookup "link" fields); reflexivity.
Qed.

Lemma all_formatted :
  forall items : list json,
    (forall item, In item items -> exists r, format_item item = Ok r) ->
    exists rs, Forall2 (fun item r => format_item item = Ok r) items rs.
Proof.
  induction items as [|x items IH]; intros H.
  - exists []. constructor.
  - destruct (H x (or_introl eq_refl)) as [r Hr].
    destruct IH as [rs Hrs]; [intros; apply H; now right|].
    exists (r :: rs). now constructor.
Qed.

(** X11.  The formatting is all or nothing: when one item of the
    provider's result list has an empty list under [thumbnails], the search
    returns the empty list, however many well-formed items stand beside
    it; the provider has been called and the error is logged. *)
Theorem X11_one_bad_item_empties_the_search :
  forall (query : string) (limit : Z) (w : World)
         (fields : list (string * json)) (items : list json)
         (bad : list (string * json)),
    provider w query limit = Ok (JDict fields) ->
    lookup "result" fields = Some (JList items) ->
    In (JDict bad) items ->
    lookup "thumbnails" bad = Some (JList []) ->
    exists (e : exn),
      search_youtube_body query limit w
      = (Ok [],
         set_log (log w ++ [("YouTube search error: " ++ exn_text e)%string])
                 (set_provider_calls (provider_calls w ++ [(query, limit)]) w)).
Proof.
  intros query limit w fields items bad Hp Hr Hin Hbad.
  destruct (format_results_one_failure items (JDict bad) Hin
              (format_item_empty_thumbnails bad Hbad) []) as [e He].
  exists e. unfold search_youtube_body, try_except, bind, videos_search, lift.
  rewrite Hp. unfold PyVal.get. rewrite Hr. simpl.
  rewrite He. reflexivity.
Qed.

Lemma X11_one_bad_item_empties_the_search_witness :
  fst (search_youtube_body "cats" 10
         (Fixture.with_provider Fixture.one_bad_item Sample.home))
  = Ok [].
Proof.
  destruct (@X11_one_bad_item_empties_the_search "cats" 10
              (Fixture.with_provider Fixture.one_bad_item Sample.home)
              _ _ [("title", JStr "two"); ("thumbnails", JList [])]
              eq_refl eq_refl ltac:(simpl; tauto) eq_refl) as [e E].
  rewrite E. reflexivity.
Defined.

(** X12.  When the provider answers with a dict whose [result] is a list
    and every item of it can be formatted, the search returns one
    formatted record per item, in the order of the items. *)
Theorem X12_search_formats_every_item :
  forall (query : string) (limit : Z) (w : World)
         (fields : list (string * json)) (items : list json),
    provider w query limit = Ok (JDict fields) ->
    lookup "result" fields = Some (JList items) ->
    (forall item, In item items -> exists r, format_item item = Ok r) ->
    exists rs : list json,
      search_youtube_body query limit w
      = (Ok rs, set_provider_calls (provider_calls w ++ [(query, limit)]) w)
      /\ Forall2 (fun item r => format_item item = Ok r) items rs
      /\ List.length rs = List.length items.
Proof.
  intros query limit w fields items Hp Hr Hall.
  destruct (all_formatted items Hall) as [rs Hrs].
  exists rs. split; [|split; [exact Hrs|]].
  - unfold search_youtube_body, try_except, bind, videos_search, lift.
    rewrite Hp. unfold PyVal.get. rewrite Hr. simpl.
    now rewrite (format_results_all Hrs []).
  - symmetry. eapply Forall2_length. exact Hrs.
Qed.

Lemma X12_search_formats_every_item_witness :
  exists rs : list json,
    fst (search_youtube_body "cats" 10
           (Fixture.with_provider Fixture.two_items Sample.home))
    = Ok rs
    /\ List.length rs = 2%nat.
Proof.
  destruct (@X12_search_formats_every_item "cats" 10
              (Fixture.with_provider Fixture.two_items Sample.home)
              _ _ eq_refl eq_refl) as (rs & E & _ & L).
  - intros item [<-|[<-|[]]]; eexists; reflexivity.
  - exists rs. rewrite E. split; [reflexivity|exact L].
Defined.

(** *** More on the clean-up *)

Lemma days_of_any_world :
  forall (RT : PyRuntime) (request : Request) (w w' : World) (days : Z),
    days_of request w = (Ok days, w) -> days_of request w' = (Ok days, w').
Proof.
  intros RT request w w' days. unfold days_of.
  destruct (lookup "days" (form request)) as [text|].
  - destruct (PyStr.py_int text) as [d|]; unfold ret, raise; intros H;
      inversion H; reflexivity.
  - unfold ret. intros H. inversion H. reflexivity.
Qed.

Lemma existsb_filter_false :
  forall (n : string) (p : string * node -> bool) (l : list (string * node)),
    existsb (String.eqb n) (map fst l) = false ->
    existsb (String.eqb n) (map fst (filter p l)) = false.
Proof.
  induction l as [|e l IH]; intros H; [reflexivity|].
  simpl in *. apply orb_false_iff in H. destruct H as [H1 H2].
  destruct (p e); simpl; [rewrite H1|]; now apply IH.
Qed.

Lemma wf_dir_filter :
  forall (p : string * node -> bool) (l : list (string * node)),
    wf_dir l = true -> wf_dir (filter p l) = true.
Proof.
  intros p l. unfold wf_dir. intros H. apply andb_prop in H.
  destruct H as [Hv Hd]. apply andb_true_intro. split.
  - clear Hd. induction l as [|e l IH]; [reflexivity|].
    simpl in *. apply andb_prop in Hv. destruct Hv as [H1 H2].
    destruct (p e); simpl; [rewrite H1|]; now apply IH.
  - clear Hv. induction l as [|e l IH]; [reflexivity|].
    simpl in *. apply andb_prop in Hd. destruct Hd as [H1 H2].
    destruct (p e); simpl; [|now apply IH].
    apply negb_true_iff in H1.
    rewrite (existsb_filter_false (fst e) p l H1). simpl. now apply IH.
Qed.

Lemma survivors_have_no_doomed :
  forall (cutoff : Z) (l : list (string * node)),
    purged_names cutoff (survivors cutoff l) = []
    /\ survivors cutoff (survivors cutoff l) = survivors cutoff l
    /\ refusals cutoff (survivors cutoff l) = refusals cutoff l.
Proof.
  intros cutoff. unfold purged_names, survivors, refusals.
  induction l as [|[n nd] l (IH1 & IH2 & IH3)]; [repeat split|].
  simpl. destruct (doomed cutoff (n, nd)) eqn:E; simpl.
  - repeat split; try assumption.
    rewrite IH3. unfold doomed in E. simpl in E.
    destruct nd as [f|c|]; try discriminate.
    destruct (f_mtime f <? cutoff); [|discriminate].
    destruct (f_unlink_error f); [discriminate|reflexivity].
  - rewrite E. simpl. repeat split; try assumption; now f_equal.
Qed.

Lemma no_inner_links_filter :
  forall (p : string * node -> bool) (l : list (string * node)),
    no_inner_links l = true -> no_inner_links (filter p l) = true.
Proof.
  intros p l. unfold no_inner_links.
  induction l as [|e l IH]; intros H; [reflexivity|].
  simpl in *. apply andb_prop in H. destruct H as [H1 H2].
  destruct (p e); simpl; [rewrite H1|]; now apply IH.
Qed.

(** X13.  Under the conditions of C4 the purge is idempotent: run again on
    the world it has just left, with the same clock and the same [days], it
    deletes nothing and changes nothing, and it reports the same errors as
    the first run (the files that could not be removed are tried again). *)
Theorem X13_purge_twice :
  forall (RT : PyRuntime) (request : Request) (w : World) (days : Z),
    wf_dir (managed (fs w)) = true ->
    no_inner_links (managed (fs w)) = true ->
    enum_fault w = None ->
    days_of request w = (Ok days, w) ->
    exact_seconds (clock w) = true ->
    exact_seconds (days * 24 * 60 * 60) = true ->
    let after := snd (flask_run (api_cleanup request) w) in
    exists errors : list string,
      fst (flask_run (api_cleanup request) w)
      = purge_answer (purged_names (clock w - days * 24 * 60 * 60)
                                   (managed (fs w))) errors
      /\ flask_run (api_cleanup request) after
         = (purge_answer [] errors, after).
Proof.
  intros RT request w days Hwf Hnl Hnf Hdays Hc Hd after.
  set (cutoff := clock w - days * 24 * 60 * 60).
  exists (refusals cutoff (managed (fs w))).
  subst after.
  rewrite (@flask_run_api_cleanup RT request w days Hwf Hnl Hnf Hdays Hc Hd).
  fold cutoff. cbn [fst snd]. split; [reflexivity|].
  set (w1 := set_fs (Fs (survivors cutoff (managed (fs w))) (above (fs w))) w).
  destruct (survivors_have_no_doomed cutoff (managed (fs w))) as (E1 & E2 & E3).
  rewrite (@flask_run_api_cleanup RT request w1 days).
  - change (clock w1) with (clock w). fold cutoff.
    change (managed (fs w1)) with (survivors cutoff (managed (fs w))).
    rewrite E1, E2, E3. reflexivity.
  - apply wf_dir_filter. exact Hwf.
  - apply no_inner_links_filter. exact Hnl.
  - exact Hnf.
  - now apply (@days_of_any_world RT request w w1 days).
  - exact Hc.
  - exact Hd.
Qed.

Lemma X13_purge_twice_witness :
  let request := Sample.post [("days", "10")] in
  let after := snd (flask_run (api_cleanup request) Sample.attic) in
  exists errors : list string,
    fst (flask_run (api_cleanup request) Sample.attic)
    = purge_answer ["old1.mp4"; "old2.mp3"] errors
    /\ flask_run (api_cleanup request) after = (purge_answer [] errors, after).
Proof.
  exact (@X13_purge_twice Sample.utc_runtime (Sample.post [("days", "10")])
           Sample.attic 10 eq_refl eq_refl eq_refl eq_refl eq_refl eq_refl).
Defined.

(** X14.  The [days] field is not validated.  An ASCII text that [int()]
    does not accept (letters, a decimal point, a separator character next
    to the digits, more than 4300 digits, nothing at all) ends the request
    with the 500 response; the managed directory is not touched, and the
    only trace is the line that the 500 handler writes to the log. *)
Theorem X14_purge_rejects_bad_days :
  forall (RT : PyRuntime) (request : Request) (w : World) (text : string),
    lookup "days" (form request) = Some text ->
    PyStr.is_ascii text = true ->
    PyStr.py_int text = None ->
    flask_run (api_cleanup request) w
    = (server_error_answer, set_log (log w ++ [server_error_line]) w)
    /\ fs (snd (flask_run (api_cleanup request) w)) = fs w.
Proof.
  intros RT request w text Hl _ Hp.
  assert (E : flask_run (api_cleanup request) w
              = (server_error_answer,
                 set_log (log w ++ [server_error_line]) w)).
  { unfold flask_run, api_cleanup, bind, days_of. rewrite Hl, Hp. reflexivity. }
  split; [exact E|]. rewrite E. reflexivity.
Qed.

Lemma X14_purge_rejects_bad_days_witness :
  fst (flask_run (api_cleanup (Sample.post [("days", "1.5")])) Sample.attic)
  = server_error_answer
  /\ fst (flask_run (api_cleanup
                       (Sample.post [("days", String (ascii_of_nat 28) "10")]))
                    Sample.attic)
     = server_error_answer
  /\ fs (snd (flask_run (api_cleanup (Sample.post [("days", "")])) Sample.attic))
     = Sample.attic_fs.
Proof.
  split; [|split].
  - rewrite (proj1 (@X14_purge_rejects_bad_days Sample.utc_runtime
                      (Sample.post [("days", "1.5")]) Sample.attic "1.5"
                      eq_refl eq_refl eq_refl)).
    reflexivity.
  - rewrite (proj1 (@X14_purge_rejects_bad_days Sample.utc_runtime
                      (Sample.post [("days", String (ascii_of_nat 28) "10")])
                      Sample.attic (String (ascii_of_nat 28) "10")
                      eq_refl eq_refl eq_refl)).
    reflexivity.
  - apply (@X14_purge_rejects_bad_days Sample.utc_runtime
             (Sample.post [("days", "")]) Sample.attic ""
             eq_refl eq_refl eq_refl).
Defined.

(** X15.  A negative [days] is accepted and puts the cutoff in the future:
    under the conditions of C4, every regular file that was modified up to
    now and can be removed is removed, however recent it is. *)
Theorem X15_purge_with_negative_days :
  forall (RT : PyRuntime) (request : Request) (w : World) (days : Z)
         (n : string) (f : file),
    wf_dir (managed (fs w)) = true ->
    no_inner_links (managed (fs w)) = true ->
    enum_fault w = None ->
    days_of request w = (Ok days, w) ->
    exact_seconds (clock w) = true ->
    exact_seconds (days * 24 * 60 * 60) = true ->
    days < 0 ->
    In (n, File f) (managed (fs w)) ->
    f_mtime f <= clock w ->
    f_unlink_error f = None ->
    exists (deleted errors : list string) (w' : World),
      flask_run (api_cleanup request) w = (purge_answer deleted errors, w')
      /\ In n deleted
      /\ lookup n (managed (fs w')) = None.
Proof.
  intros RT request w days n f Hwf Hnl Hnf Hdays Hc Hd Hneg Hin Hm Hok.
  destruct (wf_dir_parts _ Hwf) as [Hnd _].
  set (cutoff := clock w - days * 24 * 60 * 60).
  exists (purged_names cutoff (managed (fs w))),
         (refusals cutoff (managed (fs w))),
         (set_fs (Fs (survivors cutoff (managed (fs w))) (above (fs w))) w).
  split; [now apply flask_run_api_cleanup|].
  cbn [fs set_fs managed].
  apply (removed_entries cutoff _ n (File f)); try assumption.
  unfold doomed. cbn [snd]. rewrite Hok.
  replace (f_mtime f <? cutoff) with true
    by (symmetry; apply Z.ltb_lt; unfold cutoff; lia).
  reflexivity.
Qed.

Lemma X15_purge_with_negative_days_witness :
  exists (deleted errors : list string) (w' : World),
    flask_run (api_cleanup (Sample.post [("days", "-1")])) Sample.attic
    = (purge_answer deleted errors, w')
    /\ In "fresh.txt" deleted
    /\ lookup "fresh.txt" (managed (fs w')) = None.
Proof.
  apply (@X15_purge_with_negative_days Sample.utc_runtime
           (Sample.post [("days", "-1")]) Sample.attic (-1)
           "fresh.txt" (File_ (Sample.bytes_of "ee") 800000 800000 None [])
           eq_refl eq_refl eq_refl eq_refl eq_refl eq_refl).
  - lia.
  - simpl. tauto.
  - simpl. lia.
  - reflexivity.
Defined.

Section CleanupPrefix.
Context {RT : PyRuntime}.

(** The loop of the clean-up over a part of the directory: the entries
    after it are left as they are. *)
Lemma cleanup_loop_on_prefix :
  forall (cutoff : Z) (rest kept tail : list (string * node))
         (deleted errors : list string) (w : World),
    managed (fs w) = kept ++ rest ++ tail ->
    NoDup (map fst (kept ++ rest ++ tail)) ->
    no_inner_links (kept ++ rest ++ tail) = true ->
    (forall e, In e rest -> (fst e =? "..")%string = false) ->
    cleanup_loop cutoff (map fst rest) deleted errors w
    = (Ok (deleted ++ purged_names cutoff rest, errors ++ refusals cutoff rest),
       set_fs (Fs (kept ++ survivors cutoff rest ++ tail) (above (fs w))) w).
Proof.
  intros cutoff.
  induction rest as [|[n nd] rest IH];
    intros kept tail deleted errors w Hm Hnd Hnl Hv.
  - simpl. unfold ret. rewrite !app_nil_r. simpl in Hm.
    now rewrite set_fs_same.
  - simpl app in Hm, Hnd, Hnl.
    destruct (NoDup_middle _ _ _ _ Hnd) as (Hk & Hr & Hnd').
    pose proof (no_inner_links_middle _ _ _ Hnl) as Hnl'.
    assert (Hnl'' : no_inner_links ((kept ++ [(n, nd)]) ++ rest ++ tail) = true)
      by (now rewrite <- app_assoc).
    assert (Hn : (n =? "..")%string = false) by (apply (Hv (n, nd)); now left).
    assert (Hv' : forall e, In e rest -> (fst e =? "..")%string = false)
      by (intros; apply Hv; now right).
    assert (Hl : lookup n (managed (fs w)) = Some nd).
    { rewrite Hm, lookup_app_skip by assumption.
      simpl. now rewrite String.eqb_refl. }
    assert (Hm' : managed (fs w) = (kept ++ [(n, nd)]) ++ rest ++ tail)
      by (now rewrite <- app_assoc).
    assert (Hnd'' : NoDup (map fst ((kept ++ [(n, nd)]) ++ rest ++ tail)))
      by (now rewrite <- app_assoc).
    assert (Skip : doomed cutoff (n, nd) = false ->
                   stuck cutoff (n, nd) = false ->
                   cleanup_loop cutoff (map fst rest) deleted errors w
                   = (Ok (deleted ++ purged_names cutoff ((n, nd) :: rest),
                          errors ++ refusals cutoff ((n, nd) :: rest)),
                      set_fs (Fs (kept ++ survivors cutoff ((n, nd) :: rest) ++ tail)
                                 (above (fs w))) w)).
    { intros Hd Hs. rewrite (IH (kept ++ [(n, nd)]) tail) by assumption.
      unfold purged_names, survivors, refusals. simpl. rewrite Hd. simpl.
      rewrite <- app_assoc. simpl.
      unfold doomed, stuck in Hd, Hs. simpl in Hd, Hs.
      destruct nd as [f|c|]; try reflexivity.
      destruct (f_mtime f <? cutoff); [|reflexivity].
      destruct (f_unlink_error f); discriminate. }
    cbn [map fst cleanup_loop]. unfold bind at 1.
    rewrite (os_is_file_child w n Hn Hl).
    destruct nd as [f|c|]; cbn [is_regular snd].
    + unfold bind at 1. unfold bind at 1.
      rewrite (os_stat_child w n Hn Hl). unfold ret at 1.
      destruct (f_mtime f <? cutoff) eqn:Hold.
      * unfold bind at 1. unfold try_except, bind, Os.unlink.
        rewrite Hl.
        destruct (f_unlink_error f) as [msg|] eqn:Herr.
        -- unfold ret at 1.
           rewrite (IH (kept ++ [(n, File f)]) tail) by assumption.
           unfold purged_names, survivors, refusals, doomed. simpl.
           rewrite Hold, Herr. simpl.
           now rewrite <- !app_assoc.
        -- unfold ret at 1.
           change (path_name (Os.child n)) with n.
           rewrite (IH kept tail).
           ++ unfold purged_names, survivors, refusals, doomed. simpl.
              rewrite Hold, Herr. simpl.
              now rewrite <- !app_assoc.
           ++ simpl. unfold Os.without.
              rewrite Hm, remove_entry_middle by assumption.
              now apply detach_no_links.
           ++ assumption.
           ++ assumption.
           ++ assumption.
      * apply Skip; unfold doomed, stuck; simpl; now rewrite Hold.
    + unfold bind at 1. unfold ret at 1. now apply Skip.
    + unfold bind at 1. unfold ret at 1. now apply Skip.
Qed.

End CleanupPrefix.

(** X16.  The purge has no handler around its enumeration: under the
    conditions of C4 on the directory, the clock and [days], when the
    enumeration stops with an error after [k] entries, the request ends
    with the 500 response and no report, although the old removable files
    among those [k] entries are already gone; the entries after them are
    untouched, and the 500 handler writes its line to the log. *)
Theorem X16_purge_interrupted :
  forall (RT : PyRuntime) (request : Request) (w : World) (days : Z)
         (k : nat) (msg : string),
    wf_dir (managed (fs w)) = true ->
    no_inner_links (managed (fs w)) = true ->
    enum_fault w = Some (k, msg) ->
    days_of request w = (Ok days, w) ->
    exact_seconds (clock w) = true ->
    exact_seconds (days * 24 * 60 * 60) = true ->
    let cutoff := clock w - days * 24 * 60 * 60 in
    exists w' : World,
      flask_run (api_cleanup request) w = (server_error_answer, w')
      /\ managed (fs w')
         = survivors cutoff (firstn k (managed (fs w))) ++ skipn k (managed (fs w))
      /\ log w' = log w ++ [server_error_line].
Proof.
  intros RT request w days k msg Hwf Hnl Hf Hdays Hc Hd cutoff.
  destruct (wf_dir_parts _ Hwf) as [Hnd Hv].
  eexists. split.
  - unfold flask_run, api_cleanup. unfold bind at 1. rewrite Hdays.
    unfold bind at 1. unfold Os.now at 1.
    unfold bind at 1. unfold lift at 1. rewrite (cutoff_of_exact _ _ Hc Hd).
    unfold bind at 1. unfold Os.iterdir. rewrite Hf.
    unfold bind at 1. rewrite firstn_map.
    rewrite (cleanup_loop_on_prefix (clock w - days * 24 * 60 * 60)
               (firstn k (managed (fs w))) [] (skipn k (managed (fs w)))
               [] [] w).
    + reflexivity.
    + simpl. now rewrite firstn_skipn.
    + simpl. now rewrite firstn_skipn.
    + simpl. now rewrite firstn_skipn.
    + intros e He. apply Hv.
      rewrite <- (firstn_skipn k (managed (fs w))). apply in_or_app. now left.
  - split; reflexivity.
Qed.

Lemma X16_purge_interrupted_witness :
  exists w' : World,
    flask_run (api_cleanup (Sample.post [("days", "10")]))
              (Sample.interrupted 1 Sample.attic)
    = (server_error_answer, w')
    /\ map fst (managed (fs w'))
       = ["locked.bin"; "old2.mp3"; "edge.txt"; "fresh.txt"; "sub"; "pipe"]
    /\ log w' = [server_error_line].
Proof.
  destruct (@X16_purge_interrupted Sample.utc_runtime
              (Sample.post [("days", "10")]) (Sample.interrupted 1 Sample.attic)
              10 1 "Input/output error"
              eq_refl eq_refl eq_refl eq_refl eq_refl eq_refl)
    as (w' & E & Hm & Hlog).
  exists w'. split; [exact E|]. split; [rewrite Hm; reflexivity|exact Hlog].
Defined.

(** *** Archive against fetch *)



(** *** Listing, then fetch or purge *)



Section FetchOfChild.
Context {RT : PyRuntime}.


End FetchOfChild.





